(** * Content-type import endpoint: [POST /api/content-types/import]

    A shallow embedding of the handler in [src/api/routes/contentTypes.js]
    and the properties of it that the specification states.

    The handler is JavaScript over a JSON request body and a PostgreSQL
    client.  The embedding has three layers:

    - [JS]: JSON values as the handler sees them after [express.json()],
      with the operators the handler applies to them ([||], [??], [?.],
      [String(...)], [.trim()], [typeof], [!!], [Array.isArray]);
    - [Sql]: the two tables, the statements the handler sends and a client
      connection with transactions, on which any statement may raise;
    - [Route]: the handler itself, in a state-and-exception monad over the
      client connection. *)

From Stdlib Require Import ZArith List String Ascii Bool Lia DecimalString.
From Stdlib Require HexadecimalString.
Import ListNotations.
Local Open Scope string_scope.
Set Warnings "-register-all".

(* ------------------------------------------------------------------ *)
(** * Results of code that may throw *)

Inductive result (A : Type) : Type :=
| Ok (a : A)
| Throw (message : string).
Arguments Ok {A} a.
Arguments Throw {A} message.

Definition rbind {A B} (r : result A) (k : A -> result B) : result B :=
  match r with
  | Ok a => k a
  | Throw m => Throw m
  end.

Declare Scope result_scope.
Delimit Scope result_scope with result.
Notation "'let?' x ':=' r 'in' k" := (rbind r (fun x => k))
  (at level 10, x pattern, r at level 100, k at level 200) : result_scope.

(* ------------------------------------------------------------------ *)
(** * JavaScript values and operators *)

Module JS.

(** A value of a parsed JSON body, plus [undefined], which reading a
    missing property produces.  Numbers are the integers (JSON numbers
    below 10^21 without a fraction, for which [Number::toString] is the
    plain decimal numeral); strings are sequences of code units below 256.
    An object is its list of own properties, the first binding of a name
    being the one a read returns. *)
Inductive value : Type :=
| VUndefined
| VNull
| VBool (b : bool)
| VNum (n : Z)
| VStr (s : string)
| VArr (items : list value)
| VObj (props : list (string * value)).

(** [ToBoolean]: what [if (v)], [!v], [!!v] and [||] test. *)
Definition truthy (v : value) : bool :=
  match v with
  | VUndefined | VNull => false
  | VBool b => b
  | VNum n => negb (n =? 0)%Z
  | VStr s => negb (s =? "")
  | VArr _ | VObj _ => true
  end.

(** [a || b] *)
Definition or (a b : value) : value := if truthy a then a else b.

(** [a ?? b] *)
Definition nullish (a b : value) : value :=
  match a with
  | VUndefined | VNull => b
  | _ => a
  end.

Fixpoint own (props : list (string * value)) (k : string) : option value :=
  match props with
  | [] => None
  | (k', v) :: rest => if k' =? k then Some v else own rest k
  end.

(** [v?.k] for the property names the handler reads.  None of them is a
    property of [Object.prototype], [Array.prototype], [String.prototype],
    [Number.prototype] or [Boolean.prototype], so only an object's own
    properties can answer; [v.k] is the same wherever the handler has
    already tested [v] to be truthy. *)
Definition get (v : value) (k : string) : value :=
  match v with
  | VObj props =>
      match own props k with
      | Some x => x
      | None => VUndefined
      end
  | _ => VUndefined
  end.

Definition isArray (v : value) : bool :=
  match v with
  | VArr _ => true
  | _ => false
  end.

(** The elements of an array. *)
Definition elements (v : value) : list value :=
  match v with
  | VArr items => items
  | _ => []
  end.

Definition Number_toString (n : Z) : string :=
  NilZero.string_of_int (Z.to_int n).

Definition TypeError_primitive : string :=
  "Cannot convert object to primitive value".

(** [String(v)].  A parsed JSON object holds no function, so an own
    property named [toString] shadows [Object.prototype.toString] with
    something that cannot be called, [valueOf] then yields no primitive,
    and the conversion throws a [TypeError]; without it the object prints
    as [[object Object]].  An array joins its elements with commas,
    [null] and [undefined] elements printing as the empty string. *)
Fixpoint String_ (v : value) : result string :=
  match v with
  | VUndefined => Ok "undefined"
  | VNull => Ok "null"
  | VBool true => Ok "true"
  | VBool false => Ok "false"
  | VNum n => Ok (Number_toString n)
  | VStr s => Ok s
  | VArr items =>
      (fix join (l : list value) : result string :=
         match l with
         | [] => Ok ""
         | x :: rest =>
             let elem :=
               match x with
               | VUndefined | VNull => Ok ""
               | _ => String_ x
               end in
             match rest with
             | [] => elem
             | _ :: _ =>
                 (let? s := elem in
                  let? r := join rest in
                  Ok (s ++ "," ++ r))%result
             end
         end) items
  | VObj props =>
      match own props "toString" with
      | Some _ => Throw TypeError_primitive
      | None => Ok "[object Object]"
      end
  end.

(** White space and line terminators of [String.prototype.trim] among the
    code units below 256: TAB, LF, VT, FF, CR, SP and NBSP. *)
Definition is_space (c : ascii) : bool :=
  let n := nat_of_ascii c in
  ((9 <=? n)%nat && (n <=? 13)%nat) || (n =? 32)%nat || (n =? 160)%nat.

Fixpoint trimStart (s : string) : string :=
  match s with
  | EmptyString => EmptyString
  | String c rest => if is_space c then trimStart rest else s
  end.

Fixpoint trimEnd (s : string) : string :=
  match s with
  | EmptyString => EmptyString
  | String c rest =>
      match trimEnd rest with
      | EmptyString => if is_space c then EmptyString else String c EmptyString
      | kept => String c kept
      end
  end.

(** [s.trim()] *)
Definition trim (s : string) : string := trimEnd (trimStart s).

End JS.

(* ------------------------------------------------------------------ *)
(** * The store: tables, statements and the client connection *)

Module Sql.
Import JS.

(** How the driver binds a JavaScript parameter: [null] and [undefined]
    both become SQL NULL ([None]); any other value is sent as it is. *)
Definition bind (v : value) : option value :=
  match v with
  | VUndefined | VNull => None
  | _ => Some v
  end.

(** A row of [content_types].  Every attribute column is nullable and holds
    the parameter that was bound to it.  [ct_updated_at] is the last
    [NOW()] an UPDATE wrote; the INSERT statement leaves the column to the
    schema, which is not part of the handler. *)
Record content_type_row : Type := {
  ct_id : Z;
  ct_slug : string;
  ct_type : option value;
  ct_label_singular : option value;
  ct_label_plural : option value;
  ct_description : option value;
  ct_icon : option value;
  ct_is_system : option value;
  ct_name : option value;
  ct_updated_at : option Z
}.

(** A row of [content_fields]; [cf_config] is the jsonb document. *)
Record content_field_row : Type := {
  cf_id : Z;
  cf_content_type_id : Z;
  cf_field_key : string;
  cf_label : string;
  cf_type : string;
  cf_required : bool;
  cf_help_text : string;
  cf_order_index : Z;
  cf_config : value
}.

Record tables : Type := {
  content_types : list content_type_row;
  content_fields : list content_field_row
}.

(** Parameters [$2 .. $8] of [updateSql] and [insertTypeSql]. *)
Record type_params : Type := {
  p_type : option value;
  p_label_singular : option value;
  p_label_plural : option value;
  p_description : option value;
  p_icon : option value;
  p_is_system : option value;
  p_name : option value
}.

(** The statements of the handler, with their bound parameters. *)
Inductive statement : Type :=
| BEGIN
| selectSql (slug : string)
| updateSql (slug : string) (p : type_params)
| deleteSql (content_type_id : Z)
| insertTypeSql (slug : string) (p : type_params)
| insertFieldSql (content_type_id : Z) (field_key label type : string)
    (required : bool) (help_text : string) (order_index : Z) (config : value)
| COMMIT
| ROLLBACK.

(** A row of a result set. *)
Inductive row : Type :=
| id_row (id : Z)
| type_row (r : content_type_row)
| field_row (r : content_field_row).

(** [r.id] *)
Definition row_id (r : row) : Z :=
  match r with
  | id_row id => id
  | type_row r => ct_id r
  | field_row r => cf_id r
  end.

(** Modelled from the spec: the schema of the two tables is not in the
    handler's file, which never supplies an [id]; the specification has every
    INSERT produce a new identifier, here the next value of a sequence per
    table.  The database as every connection sees it is the committed tables
    and the two sequences.  A sequence is not transactional: a rolled back
    INSERT has consumed its id all the same. *)
Record database : Type := {
  committed : tables;
  type_seq : Z;
  field_seq : Z
}.

(** A client checked out of the pool: the database, the working copy of
    the tables while a transaction is open, and the statements sent so
    far. *)
Record client : Type := {
  db : database;
  pending : option tables;
  trace : list statement
}.

(** [pool.connect()] *)
Definition connect (d : database) : client :=
  {| db := d; pending := None; trace := [] |}.

(** The tables the connection reads. *)
Definition visible (c : client) : tables :=
  match pending c with
  | Some t => t
  | None => committed (db c)
  end.

(** A write goes to the open transaction's copy, or straight to the
    committed tables when no transaction is open. *)
Definition write (t : tables) (c : client) : client :=
  match pending c with
  | Some _ => {| db := db c; pending := Some t; trace := trace c |}
  | None =>
      {| db := {| committed := t;
                  type_seq := type_seq (db c);
                  field_seq := field_seq (db c) |};
         pending := None; trace := trace c |}
  end.

Definition has_slug (slug : string) (r : content_type_row) : bool :=
  ct_slug r =? slug.

(** [COALESCE(p, stored)] *)
Definition COALESCE {A} (p stored : option A) : option A :=
  match p with
  | Some v => Some v
  | None => stored
  end.

(** The SET clause of [updateSql] on one row. *)
Definition updated_row (now : Z) (p : type_params) (r : content_type_row)
  : content_type_row :=
  {| ct_id := ct_id r;
     ct_slug := ct_slug r;
     ct_type := COALESCE (p_type p) (ct_type r);
     ct_label_singular := COALESCE (p_label_singular p) (ct_label_singular r);
     ct_label_plural := COALESCE (p_label_plural p) (ct_label_plural r);
     ct_description := COALESCE (p_description p) (ct_description r);
     ct_icon := COALESCE (p_icon p) (ct_icon r);
     ct_is_system := COALESCE (p_is_system p) (ct_is_system r);
     ct_name := COALESCE (p_name p) (ct_name r);
     ct_updated_at := Some now |}.

Definition inserted_type (id : Z) (slug : string) (p : type_params)
  : content_type_row :=
  {| ct_id := id;
     ct_slug := slug;
     ct_type := p_type p;
     ct_label_singular := p_label_singular p;
     ct_label_plural := p_label_plural p;
     ct_description := p_description p;
     ct_icon := p_icon p;
     ct_is_system := p_is_system p;
     ct_name := p_name p;
     ct_updated_at := None |}.

Definition next_type_id (c : client) : client :=
  {| db := {| committed := committed (db c);
              type_seq := type_seq (db c) + 1;
              field_seq := field_seq (db c) |};
     pending := pending c; trace := trace c |}.

Definition next_field_id (c : client) : client :=
  {| db := {| committed := committed (db c);
              type_seq := type_seq (db c);
              field_seq := field_seq (db c) + 1 |};
     pending := pending c; trace := trace c |}.

(** What a statement that does not raise does, and the rows it returns. *)
Definition execute (now : Z) (st : statement) (c : client) : list row * client :=
  let t := visible c in
  match st with
  | BEGIN =>
      ([], match pending c with
           | Some _ => c
           | None => {| db := db c; pending := Some (committed (db c));
                        trace := trace c |}
           end)
  | selectSql slug =>
      (map (fun r => id_row (ct_id r)) (filter (has_slug slug) (content_types t)), c)
  | updateSql slug p =>
      (map (fun r => type_row (updated_row now p r))
           (filter (has_slug slug) (content_types t)),
       write {| content_types :=
                  map (fun r => if has_slug slug r then updated_row now p r else r)
                      (content_types t);
                content_fields := content_fields t |} c)
  | deleteSql id =>
      ([], write {| content_types := content_types t;
                    content_fields :=
                      filter (fun f => negb (cf_content_type_id f =? id)%Z)
                             (content_fields t) |} c)
  | insertTypeSql slug p =>
      let r := inserted_type (type_seq (db c)) slug p in
      ([type_row r],
       next_type_id
         (write {| content_types := content_types t ++ [r];
                   content_fields := content_fields t |} c))
  | insertFieldSql id field_key label type required help_text order_index config =>
      let r := {| cf_id := field_seq (db c);
                  cf_content_type_id := id;
                  cf_field_key := field_key;
                  cf_label := label;
                  cf_type := type;
                  cf_required := required;
                  cf_help_text := help_text;
                  cf_order_index := order_index;
                  cf_config := config |} in
      ([field_row r],
       next_field_id
         (write {| content_types := content_types t;
                   content_fields := content_fields t ++ [r] |} c))
  | COMMIT =>
      ([], {| db := {| committed := visible c;
                       type_seq := type_seq (db c);
                       field_seq := field_seq (db c) |};
              pending := None; trace := trace c |})
  | ROLLBACK =>
      ([], {| db := db c; pending := None; trace := trace c |})
  end.

(** What the handler cannot control: which of the statements it sends
    raise, by position on the connection, with the error's message; and
    the time [NOW()] returns.  Any statement may raise, ROLLBACK too: the
    server does not reject one, but a lost connection fails whatever is
    sent on it. *)
Record env : Type := {
  raises : nat -> option string;
  now : Z
}.

(** Code that runs on the connection and may throw. *)
Definition M (A : Type) : Type := client -> result A * client.

Definition ret {A} (a : A) : M A := fun c => (Ok a, c).

Definition throw {A} (message : string) : M A := fun c => (Throw message, c).

Definition bindM {A B} (m : M A) (k : A -> M B) : M B :=
  fun c =>
    match m c with
    | (Ok a, c') => k a c'
    | (Throw message, c') => (Throw message, c')
    end.

(** [try { m } catch (err) { handler(err.message) }] *)
Definition try_catch {A} (m : M A) (handler : string -> M A) : M A :=
  fun c =>
    match m c with
    | (Ok a, c') => (Ok a, c')
    | (Throw message, c') => handler message c'
    end.

Definition sent (st : statement) (c : client) : client :=
  {| db := db c; pending := pending c; trace := trace c ++ [st] |}.

(** [await client.query(st)]: the statement is sent; it raises when the
    environment says so, leaving the tables as they are, and otherwise
    takes effect and returns its rows. *)
Definition query (e : env) (st : statement) : M (list row) :=
  fun c =>
    match raises e (List.length (trace c)) with
    | Some message => (Throw message, sent st c)
    | None =>
        let (rows, c') := execute (now e) st (sent st c) in
        (Ok rows, c')
    end.

End Sql.

Declare Scope client_scope.
Delimit Scope client_scope with client.
Notation "x '<-' m ';;' k" := (Sql.bindM m (fun x => k))
  (at level 61, m at next level, right associativity) : client_scope.

(* ------------------------------------------------------------------ *)
(** * The handler of [POST /import] *)

Module Route.
Import JS Sql.
Local Open Scope client_scope.

Definition MAX_FIELDS : nat := 500.

(** The four 400 messages; the specification calls them [InvalidPayload],
    [TooManyFields], [MissingRequiredAttributes] and [NoValidFields]. *)
Definition InvalidPayload : string := "contentType and fields are required".

Definition TooManyFields (length : nat) : string :=
  "Too many fields (" ++ Number_toString (Z.of_nat length)
    ++ "). Max allowed is " ++ Number_toString (Z.of_nat MAX_FIELDS) ++ ".".

Definition MissingRequiredAttributes : string :=
  "contentType.slug (or key), contentType.singular, and contentType.plural are required".

Definition NoValidFields : string := "No valid fields provided".

Definition ImportFailed : string := "Import failed".

(** [String(a || b || "").trim()] *)
Definition first_of (v : value) (a b : string) : result string :=
  (let? s := String_ (or (or (get v a) (get v b)) (VStr "")) in
   Ok (trim s))%result.

(** An element of [normalizedFields]. *)
Record normalized_field : Type := {
  content_type_id : value;
  field_key : string;
  label : string;
  type : string;
  required : bool;
  help_text : string;
  order_index : Z;
  config : value
}.

(** The callback of [fields.map]: [None] is its [return null]. *)
Definition normalizeField (f : value) (index : nat)
  : result (option normalized_field) :=
  (let? fieldKey := first_of f "key" "field_key" in
   if fieldKey =? "" then Ok None
   else
     let config :=
       VObj [("optionsSource", nullish (get f "optionsSource") VNull);
             ("options", nullish (get f "options") VNull);
             ("relation", nullish (get f "relation") VNull)] in
     let? label := String_ (or (get f "label") (VStr fieldKey)) in
     let? type := String_ (or (get f "type") (VStr "text")) in
     let? help_text := String_ (or (get f "help_text") (VStr "")) in
     Ok (Some {| content_type_id := VNull;
                 field_key := fieldKey;
                 label := trim label;
                 type := trim type;
                 required := truthy (get f "required");
                 help_text := trim help_text;
                 order_index :=
                   match get f "order_index" with
                   | VNum n => n
                   | _ => Z.of_nat index
                   end;
                 config := config |}))%result.

(** [fields.map((f, index) => ...)], from position [index] on. *)
Fixpoint map_fields (fields : list value) (index : nat)
  : result (list (option normalized_field)) :=
  match fields with
  | [] => Ok []
  | f :: rest =>
      (let? x := normalizeField f index in
       let? xs := map_fields rest (S index) in
       Ok (x :: xs))%result
  end.

(** [.filter(Boolean)] on the mapped list: an object is truthy, [null]
    is not. *)
Fixpoint filter_Boolean {A} (l : list (option A)) : list A :=
  match l with
  | [] => []
  | Some x :: rest => x :: filter_Boolean rest
  | None :: rest => filter_Boolean rest
  end.

Definition normalizedFields (fields : list value)
  : result (list normalized_field) :=
  (let? mapped := map_fields fields 0 in Ok (filter_Boolean mapped))%result.

(** Where the code before [BEGIN] leaves the request: answered with a 400,
    or on its way with the values the rest of the handler uses. *)
Inductive checked : Type :=
| Rejected (error : string)
| Accepted (contentType : value) (fields : list value) (dryRun : value)
    (slug labelSingular labelPlural : string)
    (normalizedFields : list normalized_field).

(** Lines 15 to 74: destructuring of the body and the four checks. *)
Definition validate (req_body : value) : result checked :=
  let body := or req_body (VObj []) in
  let contentType := get body "contentType" in
  let fields := get body "fields" in
  let dryRun :=
    match get body "dryRun" with
    | VUndefined => VBool false
    | v => v
    end in
  if negb (truthy contentType) || negb (isArray fields)
  then Ok (Rejected InvalidPayload)
  else
    let fields := elements fields in
    if (MAX_FIELDS <? List.length fields)%nat
    then Ok (Rejected (TooManyFields (List.length fields)))
    else
      (let? slug := first_of contentType "slug" "key" in
       let? labelSingular := first_of contentType "singular" "label_singular" in
       let? labelPlural := first_of contentType "plural" "label_plural" in
       if (slug =? "") || (labelSingular =? "") || (labelPlural =? "")
       then Ok (Rejected MissingRequiredAttributes)
       else
         let? normalized := normalizedFields fields in
         if (List.length normalized =? 0)%nat
         then Ok (Rejected NoValidFields)
         else
           Ok (Accepted contentType fields dryRun
                 slug labelSingular labelPlural normalized))%result.

(** The parameters [$2 .. $8] of the UPDATE. *)
Definition update_params (contentType : value) (labelSingular labelPlural : string)
  : type_params :=
  {| p_type := bind (or (get contentType "type") (VStr "content"));
     p_label_singular := bind (VStr labelSingular);
     p_label_plural := bind (VStr labelPlural);
     p_description := bind (or (get contentType "description") (VStr ""));
     p_icon := bind (nullish (get contentType "icon") VNull);
     p_is_system :=
       bind (match get contentType "is_system" with
             | VBool b => VBool b
             | _ => VBool false
             end);
     p_name := bind (VStr labelPlural) |}.

(** The parameters [$2 .. $8] of the INSERT. *)
Definition insert_params (contentType : value) (labelSingular labelPlural : string)
  : type_params :=
  {| p_type := bind (or (get contentType "type") (VStr "content"));
     p_label_singular := bind (VStr labelSingular);
     p_label_plural := bind (VStr labelPlural);
     p_description := bind (or (get contentType "description") (VStr ""));
     p_icon := bind (nullish (get contentType "icon") VNull);
     p_is_system := bind (VBool (truthy (get contentType "is_system")));
     p_name := bind (VStr labelPlural) |}.

Definition TypeError_id : string :=
  "Cannot read properties of undefined (reading 'id')".

(** [contentTypeRow.id], where [contentTypeRow] is some [rows[0]]. *)
Definition id_of (contentTypeRow : option row) : M Z :=
  match contentTypeRow with
  | Some r => ret (row_id r)
  | None => throw TypeError_id
  end.

(** [s || d] on strings *)
Definition str_or (s d : string) : string := if s =? "" then d else s.

(** The loop over [normalizedFields]; it returns [insertedFields]. *)
Fixpoint insert_fields (e : env) (contentTypeRow : option row)
    (normalized : list normalized_field) (insertedFields : list (option row))
  : M (list (option row)) :=
  match normalized with
  | [] => ret insertedFields
  | f :: rest =>
      id <- id_of contentTypeRow ;;
      fieldRes <- query e (insertFieldSql id (field_key f) (label f)
                             (str_or (type f) "text") (required f)
                             (str_or (help_text f) "") (order_index f)
                             (or (config f) (VObj []))) ;;
      insert_fields e contentTypeRow rest (insertedFields ++ [hd_error fieldRes])
  end.

(** The bodies the handler answers with. *)
Inductive json : Type :=
| error_json (error : string)
| dryRun_json (ok dryRun : bool) (slug : string) (willCreateOrUpdate : bool)
    (fieldsProvided fieldsNormalized : nat)
| imported_json (ok : bool) (contentType : option row) (fieldsImported : nat)
    (replacedExisting : bool)
| failed_json (error message : string).

Record response : Type := {
  status : nat;
  body : json
}.

(** Lines 88 to 188: from [BEGIN] to the success answer. *)
Definition write_path (e : env) (contentType : value)
    (slug labelSingular labelPlural : string)
    (normalized : list normalized_field) : M response :=
  _ <- query e BEGIN ;;
  existing <- query e (selectSql slug) ;;
  contentTypeRow <-
    (if (0 <? List.length existing)%nat
     then
       updated <- query e (updateSql slug
                             (update_params contentType labelSingular labelPlural)) ;;
       id <- id_of (hd_error updated) ;;
       _ <- query e (deleteSql id) ;;
       ret (hd_error updated)
     else
       inserted <- query e (insertTypeSql slug
                              (insert_params contentType labelSingular labelPlural)) ;;
       ret (hd_error inserted)) ;;
  insertedFields <- insert_fields e contentTypeRow normalized [] ;;
  _ <- query e COMMIT ;;
  ret {| status := 200;
         body := imported_json true contentTypeRow (List.length insertedFields)
                   (0 <? List.length existing)%nat |}.

(** The handler, on a client already checked out.  [Throw] is an error
    that leaves the handler: one raised inside its [catch] block. *)
Definition handler (e : env) (req_body : value) : M response :=
  try_catch
    (match validate req_body with
     | Throw message => throw message
     | Ok (Rejected error) => ret {| status := 400; body := error_json error |}
     | Ok (Accepted contentType fields dryRun slug labelSingular labelPlural
             normalized) =>
         if truthy dryRun
         then ret {| status := 200;
                     body := dryRun_json true true slug true
                               (List.length fields) (List.length normalized) |}
         else write_path e contentType slug labelSingular labelPlural normalized
     end)
    (fun message =>
       _ <- query e ROLLBACK ;;
       ret {| status := 500; body := failed_json ImportFailed message |}).

(** One request: [pool.connect()], then the handler. *)
Definition import (e : env) (d : database) (req_body : value)
  : result response * client :=
  handler e req_body (connect d).

End Route.

(* ------------------------------------------------------------------ *)
(** * Vocabulary of the properties *)

Module Props.
Import JS Sql Route.

(** None of the [n] statements sent from position [start] on raises. *)
Definition quiet (e : env) (start n : nat) : Prop :=
  forall j, (j < n)%nat -> raises e (start + j) = None.

(** The first statement to raise from position [start] on is the one at
    [start + k], and it raises [message]. *)
Definition first_raise (e : env) (start k : nat) (message : string) : Prop :=
  quiet e start k /\ raises e (start + k) = Some message.

(** The row [insertFieldSql] stores for [f], under the id the sequence
    hands out. *)
Definition field_row_of (content_type_id id : Z) (f : normalized_field)
  : content_field_row :=
  {| cf_id := id;
     cf_content_type_id := content_type_id;
     cf_field_key := field_key f;
     cf_label := label f;
     cf_type := str_or (type f) "text";
     cf_required := required f;
     cf_help_text := str_or (help_text f) "";
     cf_order_index := order_index f;
     cf_config := or (config f) (VObj []) |}.

(** The INSERT the loop sends for [f]. *)
Definition field_statement (content_type_id : Z) (f : normalized_field) : statement :=
  insertFieldSql content_type_id (field_key f) (label f) (str_or (type f) "text")
    (required f) (str_or (help_text f) "") (order_index f) (or (config f) (VObj [])).

(** One row per normalized field, in the order of the list, with
    consecutive ids from [first]. *)
Fixpoint field_rows (content_type_id first : Z) (normalized : list normalized_field)
  : list content_field_row :=
  match normalized with
  | [] => []
  | f :: rest =>
      field_row_of content_type_id first f
        :: field_rows content_type_id (first + 1) rest
  end.

(** The stored content types a slug names. *)
Definition named (slug : string) (d : database) : list content_type_row :=
  filter (has_slug slug) (content_types (committed d)).

(** How many statements the write path sends up to and including COMMIT:
    BEGIN, SELECT, UPDATE and DELETE or else INSERT, one INSERT per field,
    COMMIT. *)
Definition path_length (slug : string) (d : database)
    (normalized : list normalized_field) : nat :=
  match named slug d with
  | [] => 4 + List.length normalized
  | _ :: _ => 5 + List.length normalized
  end.

(** The first non-empty of two alternate inputs, in the words of the
    specification: the first if it is truthy, else the second if that is,
    else the empty string. *)
Definition first_non_empty (a b : value) : value :=
  if truthy a then a else if truthy b then b else VStr "".

(** [typeof v === "object"] for a truthy [v]: arrays and objects. *)
Definition is_object (v : value) : bool :=
  match v with
  | VArr _ | VObj _ => true
  | _ => false
  end.

(** A string that does not begin with white space. *)
Definition starts_clean (s : string) : Prop :=
  match s with
  | EmptyString => True
  | String c _ => is_space c = false
  end.

(** The coalesce-on-null policy on one attribute, in the words of the
    specification: the result is the input when the input is not null, and
    the stored value otherwise. *)
Definition overwritten_if_given {A} (input stored result : option A) : Prop :=
  match input with
  | Some v => result = Some v
  | None => result = stored
  end.

(** The policy on a whole row of [content_types]. *)
Definition coalesced (now : Z) (p : type_params) (stored result : content_type_row)
  : Prop :=
  ct_id result = ct_id stored
  /\ ct_slug result = ct_slug stored
  /\ overwritten_if_given (p_type p) (ct_type stored) (ct_type result)
  /\ overwritten_if_given (p_label_singular p) (ct_label_singular stored)
       (ct_label_singular result)
  /\ overwritten_if_given (p_label_plural p) (ct_label_plural stored)
       (ct_label_plural result)
  /\ overwritten_if_given (p_description p) (ct_description stored)
       (ct_description result)
  /\ overwritten_if_given (p_icon p) (ct_icon stored) (ct_icon result)
  /\ overwritten_if_given (p_is_system p) (ct_is_system stored)
       (ct_is_system result)
  /\ overwritten_if_given (p_name p) (ct_name stored) (ct_name result)
  /\ ct_updated_at result = Some now.

(** The request is answered with status 400 and [error], and the
    connection is as [pool.connect()] returned it. *)
Definition rejected_with (e : env) (d : database) (req_body : value)
    (error : string) : Prop :=
  import e d req_body =
    (Ok {| status := 400; body := error_json error |}, connect d).

(** Bodies for the examples. *)
Definition obj_case : value :=
  VObj [("slug", VStr "case"); ("singular", VStr "Case"); ("plural", VStr "Cases")].

Definition body_status : value :=
  VObj [("contentType", obj_case);
        ("fields", VArr [VObj [("key", VStr "status"); ("type", VStr "select")]])].

Definition body_notes : value :=
  VObj [("contentType", obj_case);
        ("fields", VArr [VObj [("key", VStr "notes"); ("type", VStr "text")]])].

(** A blank slug, and 501 entries in [fields]. *)
Definition body_blank_slug_501 : value :=
  VObj [("contentType",
         VObj [("slug", VStr "   "); ("singular", VStr "Case");
               ("plural", VStr "Cases")]);
        ("fields", VArr (repeat VNull 501))].

(** A dry run of [case] with exactly 500 entries in [fields]. *)
Definition body_500 : value :=
  VObj [("contentType", obj_case);
        ("fields", VArr (repeat (VObj [("key", VStr "status")]) 500));
        ("dryRun", VBool true)].

(** A string for [contentType], and 501 entries in [fields]. *)
Definition body_string_type_501 : value :=
  VObj [("contentType", VStr "case"); ("fields", VArr (repeat VNull 501))].

(** A string for [contentType], and one field. *)
Definition body_string_type : value :=
  VObj [("contentType", VStr "case");
        ("fields", VArr [VObj [("key", VStr "status")]])].

(** A blank slug, and one field. *)
Definition body_blank_slug : value :=
  VObj [("contentType",
         VObj [("slug", VStr "   "); ("singular", VStr "Case");
               ("plural", VStr "Cases")]);
        ("fields", VArr [VObj [("key", VStr "status")]])].

(** Entries without a key only. *)
Definition body_blank_keys : value :=
  VObj [("contentType", obj_case);
        ("fields", VArr [VObj [("key", VStr "  ")]; VNull; VObj []])].

(** A dry run of [body_status], with two blank entries more. *)
Definition body_dry : value :=
  VObj [("contentType", obj_case);
        ("fields", VArr [VObj []; VObj [("key", VStr "status"); ("type", VStr "select")];
                         VNull]);
        ("dryRun", VBool true)].








Definition fresh_store : database :=
  {| committed := {| content_types := []; content_fields := [] |};
     type_seq := 1; field_seq := 1 |}.

Definition reliable : env := {| raises := fun _ => None; now := 1700000000 |}.

(** A connection on which the fourth statement raises. *)
Definition fourth_raises : env :=
  {| raises := fun k => if (k =? 3)%nat then Some "deadlock detected" else None;
     now := 1700000000 |}.

(** The store after [body_status] has been imported into [fresh_store]. *)
Definition case_store : database :=
  Eval vm_compute in db (snd (import reliable fresh_store body_status)).

End Props.

(* ------------------------------------------------------------------ *)
(** * Vocabulary of the further properties *)

Module More.
Import JS Sql Route Props.



(** A string in the form [trim] leaves it. *)
Definition trimmed (s : string) : Prop := trim s = s.

(** What every row the field loop stores has: a key and a type that are not
    empty, texts in trimmed form, and a config object of exactly the three
    settings, none of them [undefined]. *)
Definition well_formed_field (r : content_field_row) : Prop :=
  cf_field_key r <> ""
  /\ trimmed (cf_field_key r)
  /\ trimmed (cf_label r)
  /\ cf_type r <> ""
  /\ trimmed (cf_type r)
  /\ trimmed (cf_help_text r)
  /\ exists optionsSource options relation,
       cf_config r =
         VObj [("optionsSource", optionsSource); ("options", options);
               ("relation", relation)]
       /\ optionsSource <> VUndefined /\ options <> VUndefined
       /\ relation <> VUndefined.


(** A connection on which the fourth statement raises, and then the
    ROLLBACK that follows it. *)
Definition rollback_raises : env :=
  {| raises := fun k =>
       if (k =? 3)%nat then Some "deadlock detected"
       else if (k =? 4)%nat then Some "connection terminated"
       else None;
     now := 1700000000 |}.


(** Blank labels beside a slug that is an object with a [toString] of its
    own. *)
Definition body_object_slug_blank_labels : value :=
  VObj [("contentType",
         VObj [("slug", VObj [("toString", VNum 1)]); ("singular", VStr "");
               ("plural", VStr "")]);
        ("fields", VArr [VObj [("key", VStr "status")]])].

(** A content type whose system flag is the number 1. *)
Definition obj_flagged : value :=
  VObj [("slug", VStr "case"); ("singular", VStr "Case"); ("plural", VStr "Cases");
        ("is_system", VNum 1)].

(** [case] under new labels and with a description, and the field [notes]. *)
Definition body_renamed : value :=
  VObj [("contentType",
         VObj [("slug", VStr "case"); ("singular", VStr "Matter");
               ("plural", VStr "Matters"); ("description", VStr "Legal matters")]);
        ("fields", VArr [VObj [("key", VStr "notes"); ("type", VStr "text")]])].

(** The body of [body_dry] without its [dryRun]. *)
Definition body_written : value :=
  VObj [("contentType", obj_case);
        ("fields", VArr [VObj []; VObj [("key", VStr "status"); ("type", VStr "select")];
                         VNull])].

End More.

(* ------------------------------------------------------------------ *)
(** * The admin pages: stored tokens and roles *)

Module Admin.
Import JS.

(** [window.localStorage]: the stored items, and whether the browser lets
    the page at the storage at all; when it does not, every access throws. *)
Record localStorage : Type := {
  stored : string -> option string;
  blocked : bool
}.

Definition SecurityError : string := "The operation is insecure.".

(** [localStorage.getItem(k)]: the stored text or [null]. *)
Definition getItem (s : localStorage) (k : string) : result value :=
  if blocked s then Throw SecurityError
  else Ok (match stored s k with
           | Some text => VStr text
           | None => VNull
           end).

(** [localStorage.removeItem(k)] *)
Definition removeItem (s : localStorage) (k : string) : result localStorage :=
  if blocked s then Throw SecurityError
  else Ok {| stored := fun k' => if k' =? k then None else stored s k';
             blocked := blocked s |}.

(** The [keys] of [clearAuthTokens]. *)
Definition keys : list string :=
  ["token"; "serviceup_token"; "jwt"; "authToken"; "access_token"].

(** [clearAuthTokens()]: each key is removed in a [try] of its own, whose
    [catch] ignores the error. *)
Definition clearAuthTokens (s : localStorage) : localStorage :=
  fold_left (fun s k =>
               match removeItem s k with
               | Ok s' => s'
               | Throw _ => s
               end) keys s.

(** [s.split(".")] *)
Fixpoint split_dot (s : string) : list string :=
  match s with
  | EmptyString => [EmptyString]
  | String c rest =>
      if Ascii.eqb c "." then EmptyString :: split_dot rest
      else
        match split_dot rest with
        | [] => [String c EmptyString]
        | part :: parts => String c part :: parts
        end
  end.

(** [s.replace(/-/g, "+").replace(/_/g, "/")] *)
Fixpoint base64_of_url (s : string) : string :=
  match s with
  | EmptyString => EmptyString
  | String c rest =>
      String (if Ascii.eqb c "-" then "+"%char
              else if Ascii.eqb c "_" then "/"%char else c)
             (base64_of_url rest)
  end.

(** [n.toString(16)] *)
Definition toString16 (n : nat) : string :=
  HexadecimalString.NilZero.string_of_uint (Nat.to_hex_uint n).

(** [s.slice(-2)] *)
Definition slice_last2 (s : string) : string :=
  substring (String.length s - 2) 2 s.

(** The callback of the [map]: ["%" + ("00" + c.charCodeAt(0).toString(16)).slice(-2)] *)
Definition percent (c : ascii) : string :=
  "%" ++ slice_last2 ("00" ++ toString16 (nat_of_ascii c)).

(** [s.split("").map(...).join("")] *)
Fixpoint percent_encode (s : string) : string :=
  match s with
  | EmptyString => EmptyString
  | String c rest => percent c ++ percent_encode rest
  end.

Definition TypeError_null : string := "Cannot read properties of null".

Definition TypeError_call : string := "toUpperCase is not a function".

(** [v.k] where [v] has not been tested: reading a property of [null] or
    [undefined] throws. *)
Definition member (v : value) (k : string) : result value :=
  match v with
  | VUndefined | VNull => Throw TypeError_null
  | _ => Ok (get v k)
  end.

(** [a === b], as [includes] compares (no [NaN] in a parsed document).  An
    array or an object is equal to itself alone, and the values compared
    here come from different documents. *)
Definition strict_equal (a b : value) : bool :=
  match a, b with
  | VUndefined, VUndefined => true
  | VNull, VNull => true
  | VBool x, VBool y => Bool.eqb x y
  | VNum x, VNum y => (x =? y)%Z
  | VStr x, VStr y => x =? y
  | _, _ => false
  end.

(** [canSee(itemRoles, role)] *)
Definition canSee (itemRoles role : value) : bool :=
  if negb (isArray itemRoles) || (List.length (elements itemRoles) =? 0)%nat
  then true
  else if negb (truthy role) then false
  else existsb (fun r => strict_equal r role) (elements itemRoles).

Section Platform.

(** What the browser provides: [atob], [JSON.parse] after
    [decodeURIComponent], [JSON.parse] and [String.prototype.toUpperCase]. *)
Variable atob : string -> result string.
Variable parse_percent_encoded : string -> result value.
Variable JSON_parse : string -> result value.
Variable toUpperCase : string -> string.

(** [v.toUpperCase()]: only a string has the method; a parsed object that
    has a property of that name has one that cannot be called. *)
Definition call_toUpperCase (v : value) : result string :=
  match v with
  | VStr s => Ok (toUpperCase s)
  | _ => Throw TypeError_call
  end.

(** The first of the four stored tokens that is not empty. *)
Definition stored_token (s : localStorage) : result value :=
  (let? a := getItem s "token" in
   if truthy a then Ok a
   else
     let? b := getItem s "serviceup_token" in
     if truthy b then Ok b
     else
       let? c := getItem s "jwt" in
       if truthy c then Ok c else getItem s "authToken")%result.

(** [payload?.role || payload?.user?.role || payload?.claims?.role || null] *)
Definition role_of_payload (payload : value) : value :=
  or (or (or (get payload "role") (get (get payload "user") "role"))
         (get (get payload "claims") "role"))
     VNull.

(** The role the second part [p] of a token gives: the tail of
    [getRoleFromToken], from [parts[1]] on. *)
Definition role_of_part (p : string) : value :=
  match
    (let? binary := atob (base64_of_url p) in
     let? payload := parse_percent_encoded (percent_encode binary) in
     Ok (role_of_payload payload))%result
  with
  | Ok role => role
  | Throw _ => VNull
  end.

(** [getRoleFromToken()]: anything thrown gives [null]. *)
Definition getRoleFromToken (s : localStorage) : value :=
  match
    (let? token := stored_token s in
     if negb (truthy token) then Ok VNull
     else
       let? text := String_ token in
       let parts := split_dot text in
       if (List.length parts <? 2)%nat then Ok VNull
       else
         let b64 := base64_of_url (nth 1 parts "") in
         let? binary := atob b64 in
         let? payload := parse_percent_encoded (percent_encode binary) in
         Ok (role_of_payload payload))%result
  with
  | Ok role => role
  | Throw _ => VNull
  end.

(** [getCurrentRole()] of the dashboard: anything thrown gives ["ADMIN"]. *)
Definition getCurrentRole (s : localStorage) : string :=
  match
    (let? raw := getItem s "serviceup.user" in
     if negb (truthy raw) then Ok "ADMIN"
     else
       let? text := String_ raw in
       let? parsed := JSON_parse text in
       let? role := member parsed "role" in
       call_toUpperCase (or role (VStr "ADMIN")))%result
  with
  | Ok role => role
  | Throw _ => "ADMIN"
  end.

(** [effectiveRole] of the sidebar, for the [role] it is given; it is
    computed while rendering, where nothing catches. *)
Definition effectiveRole (role : value) (s : localStorage) : result string :=
  (let? fromProp :=
     if truthy role
     then (let? text := String_ role in Ok (VStr (toUpperCase text)))
     else Ok VNull in
   let fromToken := getRoleFromToken s in
   call_toUpperCase (or (or fromProp fromToken) (VStr "ADMIN")))%result.

End Platform.

(** What a [SidebarLink] hands to its [NavLink]: [to], [label] and
    [target || "_self"]. *)
Record link : Type := {
  link_to : value;
  link_label : value;
  link_target : value
}.

Definition SidebarLink (to label target : value) : link :=
  {| link_to := to; link_label := label; link_target := or target (VStr "_self") |}.

(** What the sidebar renders for one item: a link or a heading, and under
    it the links of its children, [None] where the callback returns
    [null]. *)
Inductive heading : Type :=
| heading_link (l : link)
| heading_text (label : value).

Record entry : Type := {
  entry_head : heading;
  entry_children : list (option link)
}.

(** [children.filter((child) => canSee(child.roles, role))] *)
Fixpoint filter_canSee (children : list value) (role : value) : result (list value) :=
  match children with
  | [] => Ok []
  | child :: rest =>
      (let? roles := member child "roles" in
       let? others := filter_canSee rest role in
       Ok (if canSee roles role then child :: others else others))%result
  end.

(** The callback of [items.map] in the sidebar, for the effective role. *)
Definition render_item (item role : value) : result (option entry) :=
  (let? roles := member item "roles" in
   if negb (canSee roles role) then Ok None
   else
     let isGroup :=
       isArray (get item "children")
       && (0 <? List.length (elements (get item "children")))%nat in
     let? visibleChildren :=
       if isGroup then filter_canSee (elements (get item "children")) role else Ok [] in
     Ok (Some
           {| entry_head :=
                if truthy (get item "to")
                then heading_link
                       (SidebarLink (get item "to")
                          (or (get item "label") (VStr "Link"))
                          (get item "target"))
                else heading_text (get item "label");
              entry_children :=
                if (0 <? List.length visibleChildren)%nat
                then map (fun child =>
                            if truthy (get child "to")
                            then Some (SidebarLink (get child "to")
                                         (or (get child "label") (VStr "Link"))
                                         (or (get child "target") (get item "target")))
                            else None)
                         visibleChildren
                else [] |}))%result.

(** A string without a dot. *)
Fixpoint dotless (s : string) : bool :=
  match s with
  | EmptyString => true
  | String c rest => negb (Ascii.eqb c ".") && dotless rest
  end.

(** What may follow the second part of a token: nothing, or a dot and
    anything. *)
Definition rest_of_token (s : string) : Prop :=
  s = "" \/ exists signature, s = String "." signature.

(** The inverse of [percent] on one code unit, for the statement that
    [percent_encode] loses nothing. *)
Definition hex_value (c : ascii) : nat :=
  let n := nat_of_ascii c in
  if (n <? 58)%nat then n - 48 else n - 87.

Fixpoint percent_decode (s : string) : option string :=
  match s with
  | EmptyString => Some EmptyString
  | String p (String h (String l rest)) =>
      if Ascii.eqb p "%"
      then match percent_decode rest with
           | Some decoded =>
               Some (String (ascii_of_nat (16 * hex_value h + hex_value l)) decoded)
           | None => None
           end
      else None
  | _ => None
  end.

(** A browser for the examples: a storage with a token of three parts and a
    stored user, and stand-ins for the platform's functions that know these
    two texts. *)
Definition json_role (role : string) : string :=
  let q := String (ascii_of_nat 34) EmptyString in
  "{" ++ q ++ "role" ++ q ++ ":" ++ q ++ role ++ q ++ "}".

Definition example_storage : localStorage :=
  {| stored := fun k =>
       if k =? "jwt" then Some "e30.eyJyb2xlIjoiZWRpdG9yIn0.c2ln"
       else if k =? "serviceup.user" then Some (json_role "viewer")
       else None;
     blocked := false |}.

(** The same token under the first of the keys. *)
Definition example_storage_token : localStorage :=
  {| stored := fun k =>
       if k =? "token" then Some "e30.eyJyb2xlIjoiZWRpdG9yIn0.c2ln" else None;
     blocked := false |}.

Definition example_atob (s : string) : result string :=
  if s =? "eyJyb2xlIjoiZWRpdG9yIn0" then Ok (json_role "editor")
  else Throw "InvalidCharacterError".

Definition example_parse_percent_encoded (s : string) : result value :=
  if s =? percent_encode (json_role "editor")
  then Ok (VObj [("role", VStr "editor")])
  else Throw "SyntaxError".

Definition example_JSON_parse (s : string) : result value :=
  if s =? json_role "viewer" then Ok (VObj [("role", VStr "viewer")])
  else Throw "SyntaxError".

(** A sidebar group for editors, with a child for admins only, a child
    for everyone and a child without a destination. *)
Definition example_item : value :=
  VObj [("label", VStr "Content"); ("roles", VArr [VStr "EDITOR"; VStr "ADMIN"]);
        ("target", VStr "_blank");
        ("children",
         VArr [VObj [("label", VStr "Types"); ("to", VStr "/admin/content-types");
                     ("roles", VArr [VStr "ADMIN"])];
               VObj [("to", VStr "/admin/content")];
               VObj [("label", VStr "Soon")]])].

(** The same group with a [null] among its children. *)
Definition example_item_null_child : value :=
  VObj [("label", VStr "Content"); ("roles", VArr [VStr "EDITOR"]);
        ("children", VArr [VObj [("to", VStr "/admin/content")]; VNull])].

Definition example_toUpperCase (s : string) : string :=
  if s =? "viewer" then "VIEWER"
  else if s =? "editor" then "EDITOR"
  else s.

End Admin.

Import JS Sql Route Props More Admin.
Local Open Scope list_scope.
Local Open Scope client_scope.

(* ------------------------------------------------------------------ *)
(** * Statements on the connection *)

Lemma query_quiet e st c :
  raises e (List.length (trace c)) = None ->
  query e st c =
    (Ok (fst (execute (now e) st (sent st c))), snd (execute (now e) st (sent st c))).
Proof.
  intros H. unfold query. rewrite H.
  destruct (execute (now e) st (sent st c)); reflexivity.
Qed.

Lemma query_raises e st c message :
  raises e (List.length (trace c)) = Some message ->
  query e st c = (Throw message, sent st c).
Proof. intros H. unfold query. rewrite H. reflexivity. Qed.

Lemma trace_sent st c : List.length (trace (sent st c)) = S (List.length (trace c)).
Proof. unfold sent; simpl. rewrite length_app. simpl. lia. Qed.

Lemma quiet_S e start n :
  raises e start = None -> quiet e (S start) n -> quiet e start (S n).
Proof.
  intros H0 H j Hj. destruct j as [|j].
  - rewrite Nat.add_0_r. exact H0.
  - replace (start + S j)%nat with (S start + j)%nat by lia. apply H. lia.
Qed.

Lemma first_raise_unique e start k k' message message' :
  first_raise e start k message -> first_raise e start k' message' ->
  k = k' /\ message = message'.
Proof.
  intros [Hq Hr] [Hq' Hr'].
  destruct (Nat.lt_trichotomy k k') as [Hlt | [Heq | Hgt]].
  - rewrite (Hq' k Hlt) in Hr. discriminate.
  - subst k'. split; [reflexivity | congruence].
  - rewrite (Hq k' Hgt) in Hr'. discriminate.
Qed.

Lemma quiet_no_raise e start n k message :
  quiet e start n -> first_raise e start k message -> (n <= k)%nat.
Proof.
  intros Hq [_ Hr]. destruct (Nat.le_gt_cases n k) as [H | H]; [exact H |].
  rewrite (Hq k H) in Hr. discriminate.
Qed.

(* ------------------------------------------------------------------ *)
(** * The field loop *)

(** The loop inside an open transaction: either every INSERT went through
    and the working copy holds one more row per field, or the first INSERT
    to raise ended the loop with the committed tables untouched. *)
Lemma insert_fields_run e r0 normalized : forall acc c t,
  pending c = Some t ->
  match insert_fields e (Some r0) normalized acc c with
  | (Ok inserted, c') =>
      quiet e (List.length (trace c)) (List.length normalized)
      /\ inserted =
           acc ++ map (fun r => Some (field_row r))
                      (field_rows (row_id r0) (field_seq (db c)) normalized)
      /\ db c' =
           {| committed := committed (db c);
              type_seq := type_seq (db c);
              field_seq := field_seq (db c) + Z.of_nat (List.length normalized) |}
      /\ pending c' =
           Some {| content_types := content_types t;
                   content_fields :=
                     content_fields t
                       ++ field_rows (row_id r0) (field_seq (db c)) normalized |}
      /\ trace c' = trace c ++ map (field_statement (row_id r0)) normalized
  | (Throw message, c') =>
      exists k, (k < List.length normalized)%nat
        /\ first_raise e (List.length (trace c)) k message
        /\ List.length (trace c') = (List.length (trace c) + S k)%nat
        /\ committed (db c') = committed (db c)
  end.
Proof.
  induction normalized as [|f rest IH]; intros acc c t Hp; simpl.
  - unfold ret. repeat split.
    + intros j Hj; lia.
    + rewrite app_nil_r; reflexivity.
    + destruct c as [[? ? ?] ? ?]; simpl. f_equal. lia.
    + rewrite Hp. destruct t; simpl. rewrite app_nil_r. reflexivity.
    + rewrite app_nil_r. reflexivity.
  - unfold bindM at 1. unfold ret at 1. unfold bindM at 1.
    destruct (raises e (List.length (trace c))) as [message|] eqn:Hr.
    + rewrite (query_raises _ _ _ _ Hr).
      exists 0%nat. repeat split.
      * lia.
      * intros j Hj; lia.
      * rewrite Nat.add_0_r; exact Hr.
      * rewrite trace_sent. lia.
    + rewrite (query_quiet _ _ _ Hr). cbn [execute fst snd].
      set (c1 := next_field_id _).
      assert (Hp1 : exists t1, pending c1 = Some t1
                /\ content_types t1 = content_types t
                /\ content_fields t1 =
                     content_fields t ++ [field_row_of (row_id r0) (field_seq (db c)) f]).
      { unfold c1, next_field_id, write, visible, sent; simpl. rewrite Hp; simpl.
        eexists; repeat split. }
      destruct Hp1 as (t1 & Hp1 & Ht1 & Hf1).
      assert (Htr : trace c1 = trace c ++ [field_statement (row_id r0) f]).
      { unfold c1, next_field_id, write; simpl. rewrite Hp; reflexivity. }
      assert (Hlen : List.length (trace c1) = S (List.length (trace c))).
      { rewrite Htr, length_app; simpl. lia. }
      assert (Hdb : committed (db c1) = committed (db c)
                /\ type_seq (db c1) = type_seq (db c)
                /\ field_seq (db c1) = (field_seq (db c) + 1)%Z).
      { unfold c1, next_field_id, write; simpl. rewrite Hp; simpl. repeat split. }
      destruct Hdb as (Hc & Hts & Hfs).
      specialize (IH (acc ++ [hd_error [field_row (field_row_of (row_id r0)
                                                     (field_seq (db c)) f)]]) c1 t1 Hp1).
      fold (field_row_of (row_id r0) (field_seq (db c)) f).
      destruct (insert_fields e (Some r0) rest _ c1) as [[inserted|message] c'].
      * destruct IH as (Hq & Hi & Hd & Hpe & Ht).
        repeat split.
        -- apply quiet_S; [exact Hr | rewrite <- Hlen; exact Hq].
        -- rewrite Hi, Hfs. rewrite <- app_assoc. reflexivity.
        -- rewrite Hd, Hc, Hts, Hfs. f_equal. lia.
        -- rewrite Hpe, Ht1, Hf1, Hfs. rewrite <- app_assoc. reflexivity.
        -- rewrite Ht, Htr. rewrite <- app_assoc. reflexivity.
      * destruct IH as (k & Hk & Hfr & Ht & Hcm).
        exists (S k). repeat split.
        -- lia.
        -- apply quiet_S; [exact Hr | rewrite <- Hlen; apply Hfr].
        -- replace (List.length (trace c) + S k)%nat
             with (List.length (trace c1) + k)%nat by lia. apply Hfr.
        -- rewrite Ht, Hlen. lia.
        -- rewrite Hcm, Hc. reflexivity.
Qed.

(* ------------------------------------------------------------------ *)
(** * The write path *)

Ltac quiet_few :=
  let j := fresh "j" in
  let Hj := fresh "Hj" in
  intros j Hj;
  repeat (destruct j as [|j]; [simpl; assumption |]);
  simpl in Hj; lia.

Ltac raised_at k :=
  exists k; split; [| split; [split; [quiet_few | simpl; assumption] | split]].

Lemma field_rows_length id first normalized :
  List.length (field_rows id first normalized) = List.length normalized.
Proof.
  revert first. induction normalized as [|f rest IH]; intros first; simpl;
    [reflexivity | rewrite IH; reflexivity].
Qed.

Lemma quiet_app e n m :
  quiet e 0 n -> quiet e n m -> quiet e 0 (n + m).
Proof.
  intros H1 H2 j Hj. simpl.
  destruct (Nat.lt_ge_cases j n) as [H | H].
  - apply (H1 j H).
  - replace j with (n + (j - n))%nat by lia. apply H2. lia.
Qed.

Lemma quiet_snoc e n :
  quiet e 0 n -> raises e n = None -> quiet e 0 (S n).
Proof.
  intros H1 H2 j Hj. simpl.
  destruct (Nat.eq_dec j n) as [-> | H]; [exact H2 |].
  apply (H1 j). lia.
Qed.

Lemma write_path_run e d contentType slug labelSingular labelPlural normalized :
  match write_path e contentType slug labelSingular labelPlural normalized (connect d) with
  | (Ok answer, c') =>
      quiet e 0 (path_length slug d normalized)
      /\ pending c' = None
      /\ match named slug d with
         | [] =>
             let r := inserted_type (type_seq d) slug
                        (insert_params contentType labelSingular labelPlural) in
             answer =
               {| status := 200;
                  body := imported_json true (Some (type_row r))
                            (List.length normalized) false |}
             /\ trace c' =
                  [BEGIN; selectSql slug;
                   insertTypeSql slug
                     (insert_params contentType labelSingular labelPlural)]
                    ++ map (field_statement (type_seq d)) normalized ++ [COMMIT]
             /\ db c' =
                  {| committed :=
                       {| content_types := content_types (committed d) ++ [r];
                          content_fields :=
                            content_fields (committed d)
                              ++ field_rows (type_seq d) (field_seq d) normalized |};
                     type_seq := type_seq d + 1;
                     field_seq := field_seq d + Z.of_nat (List.length normalized) |}
         | r0 :: _ =>
             let p := update_params contentType labelSingular labelPlural in
             answer =
               {| status := 200;
                  body := imported_json true (Some (type_row (updated_row (now e) p r0)))
                            (List.length normalized) true |}
             /\ trace c' =
                  [BEGIN; selectSql slug; updateSql slug p; deleteSql (ct_id r0)]
                    ++ map (field_statement (ct_id r0)) normalized ++ [COMMIT]
             /\ db c' =
                  {| committed :=
                       {| content_types :=
                            map (fun r => if has_slug slug r
                                          then updated_row (now e) p r else r)
                                (content_types (committed d));
                          content_fields :=
                            filter (fun f => negb (cf_content_type_id f =? ct_id r0)%Z)
                                   (content_fields (committed d))
                              ++ field_rows (ct_id r0) (field_seq d) normalized |};
                     type_seq := type_seq d;
                     field_seq := field_seq d + Z.of_nat (List.length normalized) |}
         end
  | (Throw message, c') =>
      exists k, (k < path_length slug d normalized)%nat
        /\ first_raise e 0 k message
        /\ List.length (trace c') = S k
        /\ committed (db c') = committed d
  end.
Proof.
  unfold write_path, path_length, named.
  unfold bindM at 1.
  destruct (raises e 0) as [m0|] eqn:H0.
  { rewrite (query_raises e BEGIN (connect d) m0 H0).
    raised_at 0%nat.
    - destruct (filter _ _); simpl; lia.
    - reflexivity.
    - reflexivity. }
  rewrite (query_quiet e BEGIN (connect d) H0).
  cbn [execute fst snd connect sent pending db trace app].
  unfold bindM at 1.
  destruct (raises e 1) as [m1|] eqn:H1.
  { rewrite query_raises with (message := m1) by exact H1.
    raised_at 1%nat.
    - destruct (filter _ _); simpl; lia.
    - reflexivity.
    - reflexivity. }
  rewrite query_quiet by exact H1.
  cbn [execute fst snd connect sent pending db trace app visible].
  rewrite length_map.
  destruct (filter (has_slug slug) (content_types (committed d))) as [|r0 others] eqn:Hnamed.
  - (* the slug names nothing: INSERT *)
    cbn [List.length Nat.ltb Nat.leb].
    unfold bindM at 1. unfold bindM at 1.
    destruct (raises e 2) as [m2|] eqn:H2.
    { rewrite query_raises with (message := m2) by exact H2.
      raised_at 2%nat.
      - lia.
      - reflexivity.
      - reflexivity. }
    rewrite query_quiet by exact H2.
    cbn [execute fst snd sent pending db trace app visible write next_type_id
         hd_error ret type_seq field_seq committed].
    unfold bindM at 1.
    set (r := inserted_type (type_seq d) slug _).
    match goal with
    | |- context [insert_fields e (Some ?r0) normalized [] ?c] =>
        pose proof (insert_fields_run e r0 normalized [] c _ eq_refl) as Hloop;
        destruct (insert_fields e (Some r0) normalized [] c)
          as [[inserted|message] c4]
    end.
    + cbn [db pending trace next_type_id committed type_seq field_seq List.length
           content_types content_fields row_id ct_id inserted_type app] in Hloop.
      destruct Hloop as (Hq & Hi & Hd & Hpe & Htr).
      assert (Ht : List.length (trace c4) = (3 + List.length normalized)%nat)
        by (rewrite Htr; simpl; rewrite length_map; reflexivity).
      assert (Hq3 : quiet e 0 3) by quiet_few.
      unfold bindM at 1.
      destruct (raises e (3 + List.length normalized)) as [m|] eqn:Hc.
      { rewrite query_raises with (message := m) by (rewrite Ht; exact Hc).
        exists (3 + List.length normalized)%nat. repeat split.
        - lia.
        - apply (quiet_app e 3); assumption.
        - exact Hc.
        - rewrite trace_sent, Ht. reflexivity.
        - unfold sent; simpl. rewrite Hd. reflexivity. }
      rewrite query_quiet by (rewrite Ht; exact Hc).
      cbn [execute fst snd ret]. unfold visible, sent. cbn [pending db trace].
      rewrite Hpe, Hd, Hi, Htr. cbn [app]. rewrite length_map, field_rows_length.
      split; [| split; [reflexivity | split; [reflexivity | split; reflexivity]]].
      change (4 + List.length normalized)%nat with (S (3 + List.length normalized)).
      apply quiet_snoc; [apply (quiet_app e 3); assumption | exact Hc].
    + cbn [db pending trace next_type_id committed type_seq field_seq List.length
           content_types content_fields row_id ct_id inserted_type app] in Hloop.
      destruct Hloop as (k & Hk & Hfr & Ht & Hcm).
      assert (Hq3 : quiet e 0 3) by quiet_few.
      exists (3 + k)%nat. repeat split.
      * lia.
      * apply (quiet_app e 3); [exact Hq3 | apply Hfr].
      * apply Hfr.
      * rewrite Ht. lia.
      * exact Hcm.
  - (* the slug names a stored content type: UPDATE, then DELETE *)
    cbn [List.length Nat.ltb Nat.leb].
    unfold bindM at 1. unfold bindM at 1. unfold bindM at 1.
    destruct (raises e 2) as [m2|] eqn:H2.
    { rewrite query_raises with (message := m2) by exact H2.
      raised_at 2%nat.
      - lia.
      - reflexivity.
      - reflexivity. }
    rewrite query_quiet by exact H2.
    cbn [execute fst snd sent pending db trace app visible write].
    rewrite Hnamed.
    cbn [map hd_error id_of ret row_id updated_row ct_id].
    unfold bindM at 1.
    destruct (raises e 3) as [m3|] eqn:H3.
    { rewrite query_raises with (message := m3) by exact H3.
      raised_at 3%nat.
      - lia.
      - reflexivity.
      - reflexivity. }
    rewrite query_quiet by exact H3.
    cbn [execute fst snd sent pending db trace app visible write ret
         content_types content_fields].
    unfold bindM at 1.
    match goal with
    | |- context [insert_fields e (Some ?r1) normalized [] ?c] =>
        pose proof (insert_fields_run e r1 normalized [] c _ eq_refl) as Hloop;
        destruct (insert_fields e (Some r1) normalized [] c)
          as [[inserted|message] c4]
    end.
    + cbn [db pending trace committed type_seq field_seq List.length
           content_types content_fields row_id ct_id updated_row app] in Hloop.
      destruct Hloop as (Hq & Hi & Hd & Hpe & Htr).
      assert (Ht : List.length (trace c4) = (4 + List.length normalized)%nat)
        by (rewrite Htr; simpl; rewrite length_map; reflexivity).
      assert (Hq4 : quiet e 0 4) by quiet_few.
      unfold bindM at 1.
      destruct (raises e (4 + List.length normalized)) as [m|] eqn:Hc.
      { rewrite query_raises with (message := m) by (rewrite Ht; exact Hc).
        exists (4 + List.length normalized)%nat. repeat split.
        - lia.
        - apply (quiet_app e 4); assumption.
        - exact Hc.
        - rewrite trace_sent, Ht. reflexivity.
        - unfold sent; simpl. rewrite Hd. reflexivity. }
      rewrite query_quiet by (rewrite Ht; exact Hc).
      cbn [execute fst snd ret]. unfold visible, sent. cbn [pending db trace].
      rewrite Hpe, Hd, Hi, Htr. cbn [app]. rewrite length_map, field_rows_length.
      split; [| split; [reflexivity | split; [reflexivity | split; reflexivity]]].
      change (5 + List.length normalized)%nat with (S (4 + List.length normalized)).
      apply quiet_snoc; [apply (quiet_app e 4); assumption | exact Hc].
    + cbn [db pending trace committed type_seq field_seq List.length
           content_types content_fields row_id ct_id updated_row app] in Hloop.
      destruct Hloop as (k & Hk & Hfr & Ht & Hcm).
      assert (Hq4 : quiet e 0 4) by quiet_few.
      exists (4 + k)%nat. repeat split.
      * lia.
      * apply (quiet_app e 4); [exact Hq4 | apply Hfr].
      * apply Hfr.
      * rewrite Ht. lia.
      * exact Hcm.
Qed.

(* ------------------------------------------------------------------ *)
(** * The handler, by what the checks decide *)

Lemma handler_rejected e req_body error c :
  validate req_body = Ok (Rejected error) ->
  handler e req_body c = (Ok {| status := 400; body := error_json error |}, c).
Proof. intros H. unfold handler, try_catch. rewrite H. reflexivity. Qed.

Lemma handler_dryRun e req_body contentType fields dryRun slug ls lp normalized c :
  validate req_body = Ok (Accepted contentType fields dryRun slug ls lp normalized) ->
  truthy dryRun = true ->
  handler e req_body c =
    (Ok {| status := 200;
           body := dryRun_json true true slug true
                     (List.length fields) (List.length normalized) |}, c).
Proof. intros H Hd. unfold handler, try_catch. rewrite H, Hd. reflexivity. Qed.

Lemma handler_writes e req_body contentType fields dryRun slug ls lp normalized c :
  validate req_body = Ok (Accepted contentType fields dryRun slug ls lp normalized) ->
  truthy dryRun = false ->
  handler e req_body c =
    try_catch (write_path e contentType slug ls lp normalized)
      (fun message =>
         _ <- query e ROLLBACK ;;
         ret {| status := 500; body := failed_json ImportFailed message |}) c.
Proof. intros H Hd. unfold handler, try_catch. rewrite H, Hd. reflexivity. Qed.

(** A request that reaches the write path and meets no error ends where
    [write_path_run] says. *)
Lemma import_quiet e d req_body contentType fields dryRun slug ls lp normalized :
  validate req_body = Ok (Accepted contentType fields dryRun slug ls lp normalized) ->
  truthy dryRun = false ->
  quiet e 0 (path_length slug d normalized) ->
  exists answer c',
    import e d req_body = (Ok answer, c')
    /\ write_path e contentType slug ls lp normalized (connect d) = (Ok answer, c').
Proof.
  intros Hv Hd Hq. unfold import.
  rewrite (handler_writes _ _ _ _ _ _ _ _ _ _ Hv Hd). unfold try_catch.
  pose proof (write_path_run e d contentType slug ls lp normalized) as Hrun.
  destruct (write_path e contentType slug ls lp normalized (connect d))
    as [[answer|message] c'].
  - exists answer, c'. split; reflexivity.
  - destruct Hrun as (k & Hk & Hfr & _).
    pose proof (quiet_no_raise _ _ _ _ _ Hq Hfr). lia.
Qed.

Lemma field_rows_nth id normalized : forall first i f,
  nth_error normalized i = Some f ->
  nth_error (field_rows id first normalized) i =
    Some (field_row_of id (first + Z.of_nat i) f).
Proof.
  induction normalized as [|g rest IH]; intros first [|i] f; simpl; try discriminate.
  - intros H; injection H as <-. rewrite Z.add_0_r. reflexivity.
  - intros H. rewrite (IH (first + 1)%Z i f H). do 2 f_equal. lia.
Qed.

(* ------------------------------------------------------------------ *)
(** * What the UPDATE does to a row *)

Lemma Forall2_map_cases {A} (R : A -> A -> Prop) (f : A -> A) (l : list A) :
  (forall x, R x (f x)) -> Forall2 R l (map f l).
Proof. intros H. induction l; simpl; constructor; auto. Qed.

Lemma overwritten_COALESCE {A} (input stored : option A) :
  overwritten_if_given input stored (COALESCE input stored).
Proof. destruct input; reflexivity. Qed.

Lemma updated_row_coalesced now p r : coalesced now p r (updated_row now p r).
Proof. unfold coalesced; simpl. repeat split; apply overwritten_COALESCE. Qed.

Lemma update_keeps_or_coalesces now slug p r :
  if has_slug slug r
  then coalesced now p r (if has_slug slug r then updated_row now p r else r)
  else (if has_slug slug r then updated_row now p r else r) = r.
Proof.
  destruct (has_slug slug r); [apply updated_row_coalesced | reflexivity].
Qed.

Lemma bind_or v s : bind (or v (VStr s)) = Some (or v (VStr s)).
Proof.
  unfold or. destruct (truthy v) eqn:Ht; [| reflexivity].
  destruct v; try reflexivity; discriminate Ht.
Qed.

Lemma named_has_slug slug d r others : named slug d = r :: others -> ct_slug r = slug.
Proof.
  unfold named. intros H.
  assert (Hin : In r (filter (has_slug slug) (content_types (committed d))))
    by (rewrite H; left; reflexivity).
  apply filter_In in Hin. destruct Hin as [_ Hs]. apply String.eqb_eq. exact Hs.
Qed.

(* ------------------------------------------------------------------ *)
(** * Import of an existing slug, import of a new slug, failure *)

(** C1.  A request that is not a dry run, passes the checks and whose slug
    names a stored content type, on a connection where none of the statements
    of the write path raises: the handler sends BEGIN, the SELECT, the UPDATE,
    the DELETE, one INSERT per normalized field and COMMIT.  The stored
    content type is updated: every row of the slug ends with the derived
    labels, the plural label as its name, the given kind or ["content"], the
    given description or the empty text, a boolean system flag, the given icon
    or else the stored one, and the time of the update, under the id and the
    slug it had; each of its attributes is overwritten by the parameter bound
    for it unless that is null; rows of other slugs stay as they were.  Every
    field row stored under the id of the content type is deleted, one row per
    normalized field is inserted under that id, and the answer is a success
    that carries the updated row, [replacedExisting: true] and
    [fieldsImported] the number of normalized fields. *)
Theorem C1_reimport_replaces_fields
    e d req_body contentType fields dryRun slug ls lp normalized r0 others :
  validate req_body = Ok (Accepted contentType fields dryRun slug ls lp normalized) ->
  truthy dryRun = false ->
  named slug d = r0 :: others ->
  quiet e 0 (5 + List.length normalized) ->
  let p := update_params contentType ls lp in
  let inserted := field_rows (ct_id r0) (field_seq d) normalized in
  exists c',
    import e d req_body =
      (Ok {| status := 200;
             body := imported_json true (Some (type_row (updated_row (now e) p r0)))
                       (List.length normalized) true |}, c')
    /\ trace c' =
         [BEGIN; selectSql slug; updateSql slug p; deleteSql (ct_id r0)]
           ++ map (field_statement (ct_id r0)) normalized ++ [COMMIT]
    /\ pending c' = None
    /\ content_types (committed (db c')) =
         map (fun r => if has_slug slug r then updated_row (now e) p r else r)
             (content_types (committed d))
    /\ content_fields (committed (db c')) =
         filter (fun f => negb (cf_content_type_id f =? ct_id r0)%Z)
                (content_fields (committed d))
           ++ inserted
    /\ List.length inserted = List.length normalized
    /\ (forall i f, nth_error normalized i = Some f ->
          nth_error inserted i =
            Some (field_row_of (ct_id r0) (field_seq d + Z.of_nat i) f))
    /\ Forall2 (fun stored result =>
                  if has_slug slug stored
                  then
                    coalesced (now e) p stored result
                    /\ ct_id result = ct_id stored
                    /\ ct_slug result = slug
                    /\ ct_type result
                       = Some (if truthy (get contentType "type")
                               then get contentType "type" else VStr "content")
                    /\ ct_label_singular result = Some (VStr ls)
                    /\ ct_label_plural result = Some (VStr lp)
                    /\ ct_description result
                       = Some (if truthy (get contentType "description")
                               then get contentType "description" else VStr "")
                    /\ ct_icon result
                       = match get contentType "icon" with
                         | VUndefined | VNull => ct_icon stored
                         | icon => Some icon
                         end
                    /\ (exists flag, ct_is_system result = Some (VBool flag))
                    /\ ct_name result = Some (VStr lp)
                    /\ ct_updated_at result = Some (now e)
                  else result = stored)
               (content_types (committed d))
               (content_types (committed (db c')))
    /\ In (updated_row (now e) p r0) (content_types (committed (db c'))).
Proof.
  intros Hv Hd Hn Hq p inserted.
  assert (Hq' : quiet e 0 (path_length slug d normalized)).
  { unfold path_length. rewrite Hn. exact Hq. }
  destruct (import_quiet _ _ _ _ _ _ _ _ _ _ Hv Hd Hq') as (answer & c' & Hi & Hw).
  pose proof (write_path_run e d contentType slug ls lp normalized) as Hrun.
  rewrite Hw, Hn in Hrun. destruct Hrun as (_ & Hp & Ha & Htr & Hdb).
  exists c'. subst answer. rewrite Hdb. cbn [committed content_types content_fields].
  split; [exact Hi |]. split; [exact Htr |]. split; [exact Hp |].
  split; [reflexivity |]. split; [reflexivity |].
  split; [apply field_rows_length |]. split; [apply field_rows_nth |].
  split.
  - apply Forall2_map_cases. intros r.
    destruct (has_slug slug r) eqn:Hs; [| reflexivity].
    apply String.eqb_eq in Hs.
    split; [apply updated_row_coalesced |].
    subst p. unfold updated_row, update_params.
    cbn [ct_id ct_slug ct_type ct_label_singular ct_label_plural ct_description
         ct_icon ct_is_system ct_name ct_updated_at
         p_type p_label_singular p_label_plural p_description p_icon p_is_system
         p_name].
    rewrite !bind_or. cbn [bind COALESCE]. unfold or.
    repeat split; try assumption.
    + destruct (get contentType "icon"); reflexivity.
    + destruct (get contentType "is_system") as [| | flag | | | |];
        cbn [bind COALESCE]; eexists; reflexivity.
  - apply in_map_iff. exists r0. split.
    + pose proof (named_has_slug _ _ _ _ Hn) as Hs.
      apply String.eqb_eq in Hs. unfold has_slug. rewrite Hs. reflexivity.
    + assert (Hin : In r0 (named slug d)) by (rewrite Hn; left; reflexivity).
      apply filter_In in Hin. exact (proj1 Hin).
Qed.

(** C2.  A request that is not a dry run, passes the checks and whose slug
    names no stored content type, on a connection where none of the
    statements of the write path raises: the handler sends BEGIN, the SELECT,
    one INSERT of a content type, one INSERT per normalized field in the
    order of the normalized list, and COMMIT; exactly one content-type row is
    added, then one field row per normalized field in that order, and the
    answer is a success with [replacedExisting: false]. *)
Theorem C2_new_slug_creates
    e d req_body contentType fields dryRun slug ls lp normalized :
  validate req_body = Ok (Accepted contentType fields dryRun slug ls lp normalized) ->
  truthy dryRun = false ->
  named slug d = [] ->
  quiet e 0 (4 + List.length normalized) ->
  let r := inserted_type (type_seq d) slug (insert_params contentType ls lp) in
  let inserted := field_rows (ct_id r) (field_seq d) normalized in
  exists c',
    import e d req_body =
      (Ok {| status := 200;
             body := imported_json true (Some (type_row r))
                       (List.length normalized) false |}, c')
    /\ trace c' =
         [BEGIN; selectSql slug;
          insertTypeSql slug (insert_params contentType ls lp)]
           ++ map (field_statement (ct_id r)) normalized ++ [COMMIT]
    /\ pending c' = None
    /\ content_types (committed (db c')) = content_types (committed d) ++ [r]
    /\ content_fields (committed (db c')) = content_fields (committed d) ++ inserted
    /\ List.length inserted = List.length normalized
    /\ (forall i f, nth_error normalized i = Some f ->
          nth_error inserted i =
            Some (field_row_of (ct_id r) (field_seq d + Z.of_nat i) f)).
Proof.
  intros Hv Hd Hn Hq r inserted.
  assert (Hq' : quiet e 0 (path_length slug d normalized)).
  { unfold path_length. rewrite Hn. exact Hq. }
  destruct (import_quiet _ _ _ _ _ _ _ _ _ _ Hv Hd Hq') as (answer & c' & Hi & Hw).
  pose proof (write_path_run e d contentType slug ls lp normalized) as Hrun.
  rewrite Hw, Hn in Hrun. destruct Hrun as (_ & Hp & Ha & Htr & Hdb).
  exists c'. subst answer. rewrite Hdb. cbn [committed content_types content_fields].
  repeat split; try assumption.
  - apply field_rows_length.
  - apply field_rows_nth.
Qed.

(** C3, as the handler has it.  A request that reaches the write path and
    on which one of the statements from BEGIN to COMMIT raises: the next
    statement the handler sends is ROLLBACK and the committed tables are
    those from before the call; when that ROLLBACK executes, the transaction
    is closed and the answer is a 500 with error [Import failed] and the
    message of the statement that raised. *)
Theorem C3_failure_rolls_back
    e d req_body contentType fields dryRun slug ls lp normalized k message :
  validate req_body = Ok (Accepted contentType fields dryRun slug ls lp normalized) ->
  truthy dryRun = false ->
  (k < path_length slug d normalized)%nat ->
  first_raise e 0 k message ->
  let c' := snd (import e d req_body) in
  committed (db c') = committed d
  /\ (exists before, trace c' = before ++ [ROLLBACK] /\ List.length before = S k)
  /\ (raises e (S k) = None ->
      fst (import e d req_body) =
        Ok {| status := 500; body := failed_json ImportFailed message |}
      /\ pending c' = None).
Proof.
  intros Hv Hd Hk Hfr. unfold import.
  rewrite (handler_writes _ _ _ _ _ _ _ _ _ _ Hv Hd). unfold try_catch.
  pose proof (write_path_run e d contentType slug ls lp normalized) as Hrun.
  destruct (write_path e contentType slug ls lp normalized (connect d))
    as [[answer|message'] c1].
  - destruct Hrun as (Hq & _).
    pose proof (quiet_no_raise _ _ _ _ _ Hq Hfr). lia.
  - destruct Hrun as (k' & Hk' & Hfr' & Ht & Hc).
    destruct (first_raise_unique _ _ _ _ _ _ Hfr' Hfr) as [-> ->].
    unfold bindM, query. rewrite Ht.
    destruct (raises e (S k)) as [m|]; cbn [execute fst snd ret sent db pending trace].
    + split; [exact Hc | split; [| discriminate]].
      exists (trace c1). split; [reflexivity | exact Ht].
    + split; [exact Hc | split; [| intros _; split; reflexivity]].
      exists (trace c1). split; [reflexivity | exact Ht].
Qed.

(** C3 as the specification words it fails where the ROLLBACK raises too.
    In this re-import of [case] the DELETE is the first statement to raise;
    the handler sends ROLLBACK, which raises as well, and the error of the
    ROLLBACK leaves the handler: the store is unchanged, but no answer with
    status 500 is given. *)
Lemma C3_rollback_raises_no_answer :
  first_raise rollback_raises 0 3 "deadlock detected"
  /\ nth_error (trace (snd (import rollback_raises case_store body_notes))) 3
     = Some (deleteSql 1)
  /\ nth_error (trace (snd (import rollback_raises case_store body_notes))) 4
     = Some ROLLBACK
  /\ committed (db (snd (import rollback_raises case_store body_notes)))
     = committed case_store
  /\ fst (import rollback_raises case_store body_notes) = Throw "connection terminated"
  /\ forall message,
       fst (import rollback_raises case_store body_notes)
       <> Ok {| status := 500; body := failed_json ImportFailed message |}.
Proof.
  split.
  { split; [| reflexivity].
    intros j Hj. destruct j as [|[|[|j]]]; [reflexivity | reflexivity | reflexivity | lia]. }
  do 3 (split; [vm_compute; reflexivity |]).
  assert (H : fst (import rollback_raises case_store body_notes)
              = Throw "connection terminated") by (vm_compute; reflexivity).
  split; [exact H |].
  intros message. rewrite H. discriminate.
Qed.

(* ------------------------------------------------------------------ *)
(** * The checks before the transaction *)

Section Checks.

Variable req_body : value.

Let body := or req_body (VObj []).
Let contentType := get body "contentType".
Let fields := get body "fields".

Lemma validate_invalid :
  truthy contentType = false \/ isArray fields = false ->
  validate req_body = Ok (Rejected InvalidPayload).
Proof.
  intros H. unfold validate. fold body. fold contentType. fold fields.
  destruct H as [H | H]; rewrite H; simpl.
  - reflexivity.
  - rewrite orb_true_r. reflexivity.
Qed.

Lemma validate_checked fs :
  truthy contentType = true -> fields = VArr fs ->
  validate req_body =
    if (MAX_FIELDS <? List.length fs)%nat
    then Ok (Rejected (TooManyFields (List.length fs)))
    else
      (let? slug := first_of contentType "slug" "key" in
       let? labelSingular := first_of contentType "singular" "label_singular" in
       let? labelPlural := first_of contentType "plural" "label_plural" in
       if (slug =? "") || (labelSingular =? "") || (labelPlural =? "")
       then Ok (Rejected MissingRequiredAttributes)
       else
         let? normalized := normalizedFields fs in
         if (List.length normalized =? 0)%nat
         then Ok (Rejected NoValidFields)
         else
           Ok (Accepted contentType fs
                 (match get body "dryRun" with
                  | VUndefined => VBool false
                  | v => v
                  end)
                 slug labelSingular labelPlural normalized))%result.
Proof.
  intros Ht Hf. unfold validate. fold body. fold contentType. fold fields.
  rewrite Ht, Hf. reflexivity.
Qed.

(** What the checks can answer, and when. *)
Lemma validate_rejected error :
  validate req_body = Ok (Rejected error) ->
  (error = InvalidPayload
   /\ (truthy contentType = false \/ isArray fields = false))
  \/ (truthy contentType = true /\ isArray fields = true
      /\ ((error = TooManyFields (List.length (elements fields))
           /\ (MAX_FIELDS < List.length (elements fields))%nat)
          \/ ((List.length (elements fields) <= MAX_FIELDS)%nat
              /\ (error = MissingRequiredAttributes \/ error = NoValidFields)))).
Proof.
  unfold validate. fold body. fold contentType. fold fields.
  destruct (truthy contentType) eqn:Ht; simpl.
  2: { intros H; injection H as <-. left. split; [reflexivity | left; reflexivity]. }
  destruct (isArray fields) eqn:Ha; simpl.
  2: { intros H; injection H as <-. left. split; [reflexivity | right; reflexivity]. }
  destruct (MAX_FIELDS <? List.length (elements fields))%nat eqn:Hm.
  { intros H; injection H as <-. right. repeat split.
    left. split; [reflexivity | apply Nat.ltb_lt; exact Hm]. }
  apply Nat.ltb_ge in Hm.
  destruct (first_of contentType "slug" "key") as [slug|]; simpl; [| discriminate].
  destruct (first_of contentType "singular" "label_singular") as [ls|]; simpl;
    [| discriminate].
  destruct (first_of contentType "plural" "label_plural") as [lp|]; simpl;
    [| discriminate].
  destruct ((slug =? "") || (ls =? "") || (lp =? "")).
  { intros H; injection H as <-. right. repeat split. right. split; [exact Hm | left; reflexivity]. }
  destruct (normalizedFields (elements fields)) as [normalized|]; simpl; [| discriminate].
  destruct (List.length normalized =? 0)%nat; [| discriminate].
  intros H; injection H as <-. right. repeat split. right.
  split; [exact Hm | right; reflexivity].
Qed.

End Checks.

(** An answer with status 400 comes from the checks, and leaves the
    connection as [pool.connect()] returned it. *)
Lemma import_400 e d req_body answer c' :
  import e d req_body = (Ok answer, c') ->
  status answer = 400%nat ->
  c' = connect d
  /\ exists error, validate req_body = Ok (Rejected error)
                   /\ body answer = error_json error.
Proof.
  unfold import, handler, try_catch.
  destruct (validate req_body) as [[error | ct fs dry slug ls lp normalized] | message] eqn:Hv.
  - unfold ret. intros H Hs. injection H as <- <-. split; [reflexivity |].
    exists error. split; reflexivity.
  - destruct (truthy dry).
    + unfold ret. intros H Hs. injection H as <- <-. discriminate Hs.
    + pose proof (write_path_run e d ct slug ls lp normalized) as Hrun.
      destruct (write_path e ct slug ls lp normalized (connect d))
        as [[answer1|message] c1].
      * intros H Hs. injection H as <- <-.
        destruct Hrun as (_ & _ & Hrun).
        destruct (named slug d); destruct Hrun as [-> _]; discriminate Hs.
      * unfold bindM, query.
        destruct (raises e (List.length (trace c1))); simpl; [discriminate |].
        unfold ret. intros H Hs. injection H as <- <-. discriminate Hs.
  - unfold throw, bindM, query.
    destruct (raises e (List.length (trace (connect d)))); simpl; [discriminate |].
    unfold ret. intros H Hs. injection H as <- <-. discriminate Hs.
Qed.

Lemma TooManyFields_distinct n :
  TooManyFields n <> InvalidPayload
  /\ TooManyFields n <> MissingRequiredAttributes
  /\ TooManyFields n <> NoValidFields.
Proof.
  unfold TooManyFields, InvalidPayload, MissingRequiredAttributes, NoValidFields.
  cbn [append]. repeat split; discriminate.
Qed.

(** An answer that carries one of the 400 messages comes from the checks. *)
Lemma import_error e d req_body answer c' error :
  import e d req_body = (Ok answer, c') ->
  body answer = error_json error ->
  validate req_body = Ok (Rejected error).
Proof.
  unfold import, handler, try_catch.
  destruct (validate req_body) as [[error' | ct fs dry slug ls lp normalized] | message].
  - unfold ret. intros H Hb. injection H as <- <-. injection Hb as ->. reflexivity.
  - destruct (truthy dry).
    + unfold ret. intros H Hb. injection H as <- <-. discriminate Hb.
    + pose proof (write_path_run e d ct slug ls lp normalized) as Hrun.
      destruct (write_path e ct slug ls lp normalized (connect d))
        as [[answer1|message] c1].
      * intros H Hb. injection H as <- <-.
        destruct Hrun as (_ & _ & Hrun).
        destruct (named slug d); destruct Hrun as [-> _]; discriminate Hb.
      * unfold bindM, query.
        destruct (raises e (List.length (trace c1))); simpl; [discriminate |].
        unfold ret. intros H Hb. injection H as <- <-. discriminate Hb.
  - unfold throw, bindM, query.
    destruct (raises e (List.length (trace (connect d)))); simpl; [discriminate |].
    unfold ret. intros H Hb. injection H as <- <-. discriminate Hb.
Qed.

Section Rejections.

Variables (e : env) (d : database) (req_body : value).

Let payload := or req_body (VObj []).
Let contentType := get payload "contentType".
Let fields := get payload "fields".

Lemma import_invalid :
  truthy contentType = false \/ isArray fields = false ->
  rejected_with e d req_body InvalidPayload.
Proof. intros H. apply handler_rejected, validate_invalid, H. Qed.

Lemma import_too_many fs :
  truthy contentType = true -> fields = VArr fs ->
  (MAX_FIELDS < List.length fs)%nat ->
  rejected_with e d req_body (TooManyFields (List.length fs)).
Proof.
  intros Ht Hf Hm. apply handler_rejected.
  rewrite (validate_checked req_body fs Ht Hf).
  apply Nat.ltb_lt in Hm. rewrite Hm. reflexivity.
Qed.

Lemma import_missing fs slug ls lp :
  truthy contentType = true -> fields = VArr fs ->
  (List.length fs <= MAX_FIELDS)%nat ->
  first_of contentType "slug" "key" = Ok slug ->
  first_of contentType "singular" "label_singular" = Ok ls ->
  first_of contentType "plural" "label_plural" = Ok lp ->
  slug = "" \/ ls = "" \/ lp = "" ->
  rejected_with e d req_body MissingRequiredAttributes.
Proof.
  intros Ht Hf Hm Hslug Hls Hlp He. apply handler_rejected.
  rewrite (validate_checked req_body fs Ht Hf).
  fold payload. fold contentType.
  apply Nat.ltb_ge in Hm. rewrite Hm, Hslug, Hls, Hlp. cbn [rbind].
  replace ((slug =? "") || (ls =? "") || (lp =? "")) with true; [reflexivity |].
  symmetry. destruct He as [-> | [-> | ->]]; simpl;
    rewrite ?orb_true_r; reflexivity.
Qed.

Lemma import_no_valid fs slug ls lp :
  truthy contentType = true -> fields = VArr fs ->
  (List.length fs <= MAX_FIELDS)%nat ->
  first_of contentType "slug" "key" = Ok slug ->
  first_of contentType "singular" "label_singular" = Ok ls ->
  first_of contentType "plural" "label_plural" = Ok lp ->
  slug <> "" -> ls <> "" -> lp <> "" ->
  normalizedFields fs = Ok [] ->
  rejected_with e d req_body NoValidFields.
Proof.
  intros Ht Hf Hm Hslug Hls Hlp H1 H2 H3 Hn. apply handler_rejected.
  rewrite (validate_checked req_body fs Ht Hf).
  fold payload. fold contentType.
  apply Nat.ltb_ge in Hm. rewrite Hm, Hslug, Hls, Hlp. cbn [rbind].
  apply String.eqb_neq in H1, H2, H3. rewrite H1, H2, H3, Hn. reflexivity.
Qed.

Lemma import_not_too_many fs n answer c' :
  truthy contentType = true -> fields = VArr fs ->
  (List.length fs <= MAX_FIELDS)%nat ->
  import e d req_body = (Ok answer, c') ->
  Route.body answer <> error_json (TooManyFields n).
Proof.
  intros Ht Hf Hm Hi Hb.
  pose proof (import_error _ _ _ _ _ _ Hi Hb) as Hr.
  destruct (TooManyFields_distinct n) as (D1 & D2 & D3).
  apply validate_rejected in Hr. fold payload contentType fields in Hr.
  rewrite Hf in Hr. cbn [elements] in Hr.
  destruct Hr as [[Hr _] | (_ & _ & [[_ Hr] | [_ [Hr | Hr]]])];
    try contradiction; lia.
Qed.

End Rejections.

(** C4, as the handler has it.  The checks come in the order
    InvalidPayload, TooManyFields, MissingRequiredAttributes, NoValidFields,
    and the first that fails makes the answer: a body without a truthy
    [contentType] or without an array [fields] is InvalidPayload; otherwise
    more than 500 entries is TooManyFields, while 500 or fewer is never
    TooManyFields; otherwise, when the conversions of the slug and of the two
    labels to a string complete, an empty slug or label is
    MissingRequiredAttributes; otherwise, when the conversions in the field
    entries complete too, an empty normalized list is NoValidFields.  Each of
    these answers has status 400 and leaves the connection as it was checked
    out: no statement has been sent, so no transaction was opened and nothing
    was written.  Every answer with status 400 is one of the four. *)
Theorem C4_checks_in_order e d req_body :
  let body := or req_body (VObj []) in
  let contentType := get body "contentType" in
  let fields := get body "fields" in
  let rejected := rejected_with e d req_body in
  (truthy contentType = false \/ isArray fields = false -> rejected InvalidPayload)
  /\ (forall fs,
        truthy contentType = true -> fields = VArr fs ->
        ((MAX_FIELDS < List.length fs)%nat ->
         rejected (TooManyFields (List.length fs)))
        /\ ((List.length fs <= MAX_FIELDS)%nat ->
            (forall n answer c',
               import e d req_body = (Ok answer, c') ->
               Route.body answer <> error_json (TooManyFields n))
            /\ forall slug ls lp,
                 first_of contentType "slug" "key" = Ok slug ->
                 first_of contentType "singular" "label_singular" = Ok ls ->
                 first_of contentType "plural" "label_plural" = Ok lp ->
                 (slug = "" \/ ls = "" \/ lp = "" ->
                  rejected MissingRequiredAttributes)
                 /\ (slug <> "" -> ls <> "" -> lp <> "" ->
                     normalizedFields fs = Ok [] ->
                     rejected NoValidFields)))
  /\ (forall answer c',
        import e d req_body = (Ok answer, c') ->
        status answer = 400%nat ->
        c' = connect d
        /\ trace c' = []
        /\ pending c' = None
        /\ db c' = d
        /\ (Route.body answer = error_json InvalidPayload
            \/ Route.body answer =
                 error_json (TooManyFields (List.length (elements fields)))
            \/ Route.body answer = error_json MissingRequiredAttributes
            \/ Route.body answer = error_json NoValidFields)).
Proof.
  intros body contentType fields rejected. subst rejected. cbv beta.
  split; [| split].
  - apply import_invalid.
  - intros fs Ht Hf. split.
    + apply import_too_many; assumption.
    + intros Hm. split.
      * intros n answer c'. apply (import_not_too_many e d req_body fs); assumption.
      * intros slug ls lp Hslug Hls Hlp. split.
        -- apply (import_missing e d req_body fs slug ls lp); assumption.
        -- intros H1 H2 H3 Hn.
           apply (import_no_valid e d req_body fs slug ls lp); assumption.
  - intros answer c' Hi Hs.
    destruct (import_400 _ _ _ _ _ Hi Hs) as (-> & error & Hr & Hb).
    repeat split; try reflexivity.
    rewrite Hb. apply validate_rejected in Hr.
    fold body contentType fields in Hr.
    destruct Hr as [[-> _] | (_ & _ & [[-> _] | [_ [-> | ->]]])]; auto.
Qed.

(** C4 as the specification words it fails where a conversion to a string
    throws.  This body passes the first two checks and its labels are blank,
    which is the third check's case; but its slug is an object with a
    [toString] of its own, the conversion of the slug throws before the check
    is reached, and the handler's [catch] sends ROLLBACK and answers 500. *)
Lemma C4_blank_labels_with_object_slug :
  truthy (get body_object_slug_blank_labels "contentType") = true
  /\ isArray (get body_object_slug_blank_labels "fields") = true
  /\ (List.length (elements (get body_object_slug_blank_labels "fields"))
      <= MAX_FIELDS)%nat
  /\ first_of (get body_object_slug_blank_labels "contentType")
       "singular" "label_singular" = Ok ""
  /\ first_of (get body_object_slug_blank_labels "contentType")
       "plural" "label_plural" = Ok ""
  /\ import reliable fresh_store body_object_slug_blank_labels =
       (Ok {| status := 500; body := failed_json ImportFailed TypeError_primitive |},
        {| db := fresh_store; pending := None; trace := [ROLLBACK] |})
  /\ (forall error,
        ~ rejected_with reliable fresh_store body_object_slug_blank_labels error).
Proof.
  do 2 (split; [reflexivity |]).
  split; [vm_compute; lia |].
  do 2 (split; [reflexivity |]).
  assert (H : import reliable fresh_store body_object_slug_blank_labels =
              (Ok {| status := 500;
                     body := failed_json ImportFailed TypeError_primitive |},
               {| db := fresh_store; pending := None; trace := [ROLLBACK] |}))
    by (vm_compute; reflexivity).
  split; [exact H |].
  intros error E. unfold rejected_with in E. rewrite H in E.
  apply (f_equal (fun answered => trace (snd answered))) in E.
  discriminate E.
Qed.

(** What a request that passed the checks carries on. *)
Lemma validate_accepted req_body contentType fields dryRun slug ls lp normalized :
  validate req_body = Ok (Accepted contentType fields dryRun slug ls lp normalized) ->
  let body := or req_body (VObj []) in
  contentType = get body "contentType"
  /\ truthy contentType = true
  /\ get body "fields" = VArr fields
  /\ (List.length fields <= MAX_FIELDS)%nat
  /\ dryRun = match get body "dryRun" with VUndefined => VBool false | v => v end
  /\ first_of contentType "slug" "key" = Ok slug
  /\ first_of contentType "singular" "label_singular" = Ok ls
  /\ first_of contentType "plural" "label_plural" = Ok lp
  /\ slug <> "" /\ ls <> "" /\ lp <> ""
  /\ normalizedFields fields = Ok normalized
  /\ normalized <> [].
Proof.
  intros H body. revert H. unfold validate. fold body.
  destruct (truthy (get body "contentType")) eqn:Ht; simpl; [| discriminate].
  destruct (get body "fields") as [| | | | | fs |] eqn:Hf; simpl; try discriminate.
  destruct (MAX_FIELDS <? List.length fs)%nat eqn:Hm; [discriminate |].
  apply Nat.ltb_ge in Hm.
  destruct (first_of (get body "contentType") "slug" "key") as [slug'|] eqn:H1;
    simpl; [| discriminate].
  destruct (first_of (get body "contentType") "singular" "label_singular")
    as [ls'|] eqn:H2; simpl; [| discriminate].
  destruct (first_of (get body "contentType") "plural" "label_plural")
    as [lp'|] eqn:H3; simpl; [| discriminate].
  destruct (slug' =? "") eqn:E1; simpl; [discriminate |].
  destruct (ls' =? "") eqn:E2; simpl; [discriminate |].
  destruct (lp' =? "") eqn:E3; simpl; [discriminate |].
  destruct (normalizedFields fs) as [normalized'|] eqn:Hn; simpl; [| discriminate].
  destruct normalized' as [|x xs]; simpl; [discriminate |].
  intros H. injection H as <- <- <- <- <- <- <-.
  apply String.eqb_neq in E1, E2, E3.
  repeat split; try assumption; try reflexivity; try discriminate.
Qed.

(** C5.  A request that passes the checks and asks for a dry run is answered
    [{ ok: true, dryRun: true, slug, willCreateOrUpdate: true, fieldsProvided,
    fieldsNormalized }], with [fieldsProvided] the length of the [fields]
    array of the body and [fieldsNormalized] the length of its normalized
    list, on a connection on which no statement has been sent: the store is
    neither read nor written, and in particular the slug is not looked up. *)
Theorem C5_dry_run e d req_body contentType fields dryRun slug ls lp normalized :
  validate req_body = Ok (Accepted contentType fields dryRun slug ls lp normalized) ->
  truthy (get (or req_body (VObj [])) "dryRun") = true ->
  exists c',
    import e d req_body =
      (Ok {| status := 200;
             body := dryRun_json true true slug true
                       (List.length fields) (List.length normalized) |}, c')
    /\ trace c' = []
    /\ pending c' = None
    /\ db c' = d
    /\ get (or req_body (VObj [])) "fields" = VArr fields
    /\ normalizedFields fields = Ok normalized
    /\ first_of (get (or req_body (VObj [])) "contentType") "slug" "key" = Ok slug.
Proof.
  intros Hv Hd.
  destruct (validate_accepted _ _ _ _ _ _ _ _ Hv)
    as (Hct & _ & Hf & _ & Hdry & Hs & _ & _ & _ & _ & _ & Hn & _).
  exists (connect d). unfold import.
  rewrite (handler_dryRun _ _ _ _ _ _ _ _ _ _ Hv).
  - subst contentType. repeat split; assumption.
  - rewrite Hdry. destruct (get (or req_body (VObj [])) "dryRun"); exact Hd.
Qed.

(* ------------------------------------------------------------------ *)
(** * Trimming and the alternate keys *)

Lemma trimStart_clean s : starts_clean (trimStart s).
Proof.
  induction s as [|c rest IH]; simpl; [exact I |].
  destruct (is_space c) eqn:Hc; [exact IH | exact Hc].
Qed.

Lemma trimStart_of_clean s : starts_clean s -> trimStart s = s.
Proof. destruct s as [|c rest]; simpl; [reflexivity | intros ->; reflexivity]. Qed.

Lemma trimEnd_clean s : starts_clean s -> starts_clean (trimEnd s).
Proof.
  destruct s as [|c rest]; simpl; [exact (fun H => H) |].
  intros Hc. destruct (trimEnd rest); [rewrite Hc |]; exact Hc.
Qed.

Lemma trimEnd_idempotent s : trimEnd (trimEnd s) = trimEnd s.
Proof.
  induction s as [|c rest IH]; simpl; [reflexivity |].
  destruct (trimEnd rest) as [|c' kept] eqn:Hk.
  - destruct (is_space c) eqn:Hc; simpl; [reflexivity | rewrite Hc; reflexivity].
  - cbn [trimEnd] in IH |- *. fold trimEnd in IH |- *.
    change (trimEnd (String c (String c' kept)))
      with (match trimEnd (String c' kept) with
            | EmptyString => if is_space c then EmptyString else String c EmptyString
            | kept' => String c kept'
            end).
    rewrite IH. reflexivity.
Qed.

Lemma trim_idempotent s : trim (trim s) = trim s.
Proof.
  unfold trim.
  rewrite (trimStart_of_clean (trimEnd (trimStart s))).
  - apply trimEnd_idempotent.
  - apply trimEnd_clean, trimStart_clean.
Qed.

Lemma first_non_empty_or a b : or (or a b) (VStr "") = first_non_empty a b.
Proof.
  unfold or, first_non_empty.
  destruct (truthy a) eqn:Ha; [rewrite Ha; reflexivity |].
  destruct (truthy b); reflexivity.
Qed.

Lemma first_of_spec v a b s :
  first_of v a b = Ok s <->
  exists raw, String_ (first_non_empty (get v a) (get v b)) = Ok raw /\ s = trim raw.
Proof.
  unfold first_of. rewrite first_non_empty_or.
  destruct (String_ (first_non_empty (get v a) (get v b))) as [raw|m]; simpl.
  - split.
    + intros H; injection H as <-. exists raw. split; reflexivity.
    + intros (raw' & H & ->). injection H as ->. reflexivity.
  - split; [discriminate | intros (raw' & H & _); discriminate].
Qed.

(* ------------------------------------------------------------------ *)
(** * Normalization of the field list *)














(* ------------------------------------------------------------------ *)
(** * The required attributes *)

(** C8, as the handler has it.  For a body that passes the first two checks
    (a truthy [contentType], an array [fields] of at most 500 entries) and
    whose three conversions to a string complete: the slug is the first
    non-empty of [slug] and [key], trimmed, the singular label that of
    [singular] and [label_singular], the plural label that of [plural] and
    [label_plural]; if one of the three is empty the answer is
    MissingRequiredAttributes with status 400, and otherwise these are the
    values the handler goes on with. *)
Theorem C8_required_attributes
    e d req_body fs raw_slug raw_singular raw_plural :
  let body := or req_body (VObj []) in
  let contentType := get body "contentType" in
  truthy contentType = true ->
  get body "fields" = VArr fs ->
  (List.length fs <= MAX_FIELDS)%nat ->
  String_ (first_non_empty (get contentType "slug") (get contentType "key"))
    = Ok raw_slug ->
  String_ (first_non_empty (get contentType "singular")
             (get contentType "label_singular")) = Ok raw_singular ->
  String_ (first_non_empty (get contentType "plural")
             (get contentType "label_plural")) = Ok raw_plural ->
  (trim raw_slug = "" \/ trim raw_singular = "" \/ trim raw_plural = "" ->
   rejected_with e d req_body MissingRequiredAttributes)
  /\ (forall contentType' fields dryRun slug ls lp normalized,
        validate req_body =
          Ok (Accepted contentType' fields dryRun slug ls lp normalized) ->
        slug = trim raw_slug /\ ls = trim raw_singular /\ lp = trim raw_plural
        /\ slug <> "" /\ ls <> "" /\ lp <> "").
Proof.
  intros body contentType Ht Hf Hm H1 H2 H3.
  assert (F1 : first_of contentType "slug" "key" = Ok (trim raw_slug))
    by (apply first_of_spec; exists raw_slug; split; [exact H1 | reflexivity]).
  assert (F2 : first_of contentType "singular" "label_singular" = Ok (trim raw_singular))
    by (apply first_of_spec; exists raw_singular; split; [exact H2 | reflexivity]).
  assert (F3 : first_of contentType "plural" "label_plural" = Ok (trim raw_plural))
    by (apply first_of_spec; exists raw_plural; split; [exact H3 | reflexivity]).
  split.
  - intros He.
    apply (import_missing e d req_body fs _ _ _ Ht Hf Hm F1 F2 F3 He).
  - intros ct' fields dry slug ls lp normalized Hv.
    destruct (validate_accepted _ _ _ _ _ _ _ _ Hv)
      as (Hct & _ & _ & _ & _ & Hs & Hls & Hlp & N1 & N2 & N3 & _).
    fold body in Hct. fold contentType in Hct. subst ct'.
    rewrite F1 in Hs. rewrite F2 in Hls. rewrite F3 in Hlp.
    injection Hs as <-. injection Hls as <-. injection Hlp as <-.
    repeat split; assumption.
Qed.

Lemma answers_differ (error error' : string) :
  error <> error' ->
  Ok {| status := 400; body := error_json error |}
    <> Ok {| status := 400; body := error_json error' |}.
Proof.
  intros Hne E. apply Hne.
  exact (f_equal (fun r => match r with
                           | Ok {| body := error_json s |} => s
                           | _ => ""
                           end) E).
Qed.

(** C8 as the specification words it fails where an earlier check answers
    first: the slug of this body is empty after trimming, and with 501
    entries in [fields] the answer is TooManyFields. *)
Lemma C8_blank_slug_among_501_fields :
  first_of (get body_blank_slug_501 "contentType") "slug" "key" = Ok ""
  /\ fst (import reliable fresh_store body_blank_slug_501) =
       Ok {| status := 400; body := error_json (TooManyFields 501) |}
  /\ fst (import reliable fresh_store body_blank_slug_501) <>
       Ok {| status := 400; body := error_json MissingRequiredAttributes |}.
Proof.
  split; [reflexivity |].
  assert (H : fst (import reliable fresh_store body_blank_slug_501) =
              Ok {| status := 400; body := error_json (TooManyFields 501) |})
    by (vm_compute; reflexivity).
  split; [exact H |].
  rewrite H. apply answers_differ.
  exact (proj1 (proj2 (TooManyFields_distinct 501))).
Qed.

(* ------------------------------------------------------------------ *)
(** * A [contentType] that is not an object *)

Lemma get_of_primitive v k : is_object v = false -> get v k = VUndefined.
Proof. destruct v; simpl; intros H; try reflexivity; discriminate H. Qed.

Lemma first_of_primitive v a b : is_object v = false -> first_of v a b = Ok "".
Proof.
  intros H. unfold first_of. rewrite !(get_of_primitive v _ H). reflexivity.
Qed.

(** C10, as the handler has it.  A body whose [contentType] is truthy and not
    an object (true, a number other than 0, a non-empty string), with an
    array for [fields], is never answered InvalidPayload; when the array has
    at most 500 entries the handler goes on to derive the slug and the
    labels, finds all three empty, and answers MissingRequiredAttributes. *)
Theorem C10_primitive_contentType e d req_body fs :
  let body := or req_body (VObj []) in
  let contentType := get body "contentType" in
  truthy contentType = true ->
  is_object contentType = false ->
  get body "fields" = VArr fs ->
  (forall answer c',
     import e d req_body = (Ok answer, c') ->
     Route.body answer <> error_json InvalidPayload)
  /\ ((List.length fs <= MAX_FIELDS)%nat ->
      first_of contentType "slug" "key" = Ok ""
      /\ first_of contentType "singular" "label_singular" = Ok ""
      /\ first_of contentType "plural" "label_plural" = Ok ""
      /\ rejected_with e d req_body MissingRequiredAttributes).
Proof.
  intros body contentType Ht Ho Hf. split.
  - intros answer c' Hi Hb.
    pose proof (import_error _ _ _ _ _ _ Hi Hb) as Hr.
    apply validate_rejected in Hr. fold body in Hr. fold contentType in Hr.
    rewrite Hf in Hr. cbn [isArray elements] in Hr.
    destruct (TooManyFields_distinct (List.length fs)) as (D1 & _ & _).
    destruct Hr as [[_ [Hr | Hr]] | (_ & _ & [[Hr _] | [_ [Hr | Hr]]])].
    + rewrite Ht in Hr. discriminate.
    + discriminate.
    + symmetry in Hr. contradiction.
    + discriminate Hr.
    + discriminate Hr.
  - intros Hm.
    pose proof (first_of_primitive contentType "slug" "key" Ho) as F1.
    pose proof (first_of_primitive contentType "singular" "label_singular" Ho) as F2.
    pose proof (first_of_primitive contentType "plural" "label_plural" Ho) as F3.
    repeat split; try assumption.
    apply (import_missing e d req_body fs _ _ _ Ht Hf Hm F1 F2 F3).
    left; reflexivity.
Qed.

(** C10 as it is worded fails on a long array: with a string
    for [contentType] and 501 entries in [fields] the request is not
    InvalidPayload, yet it never reaches the slug: the answer is
    TooManyFields. *)
Lemma C10_string_contentType_among_501_fields :
  truthy (get body_string_type_501 "contentType") = true
  /\ is_object (get body_string_type_501 "contentType") = false
  /\ isArray (get body_string_type_501 "fields") = true
  /\ fst (import reliable fresh_store body_string_type_501) =
       Ok {| status := 400; body := error_json (TooManyFields 501) |}
  /\ fst (import reliable fresh_store body_string_type_501) <>
       Ok {| status := 400; body := error_json MissingRequiredAttributes |}.
Proof.
  do 3 (split; [reflexivity |]).
  assert (H : fst (import reliable fresh_store body_string_type_501) =
              Ok {| status := 400; body := error_json (TooManyFields 501) |})
    by (vm_compute; reflexivity).
  split; [exact H |].
  rewrite H. apply answers_differ.
  exact (proj1 (proj2 (TooManyFields_distinct 501))).
Qed.

(* ------------------------------------------------------------------ *)
(** * The UPDATE of an existing content type *)

Lemma visible_write t c : visible (write t c) = t.
Proof. unfold visible, write. destruct (pending c); reflexivity. Qed.

(** C6.  The UPDATE overwrites an attribute of the content type only when
    the parameter bound for it is not null and keeps the stored value
    otherwise, for kind, singular label, plural label, description, icon,
    system flag and name, and sets the modification time; rows of other slugs
    stay as they are.  This holds of the statement whatever its parameters,
    and of the content types that a re-import of an existing slug leaves
    committed. *)
Theorem C6_update_coalesces
    e d req_body contentType fields dryRun slug ls lp normalized r0 others :
  validate req_body = Ok (Accepted contentType fields dryRun slug ls lp normalized) ->
  truthy dryRun = false ->
  named slug d = r0 :: others ->
  quiet e 0 (5 + List.length normalized) ->
  (forall p c,
     Forall2 (fun stored result =>
                if has_slug slug stored
                then coalesced (now e) p stored result
                else result = stored)
             (content_types (visible c))
             (content_types (visible (snd (execute (now e) (updateSql slug p) c)))))
  /\ exists answer c',
       import e d req_body = (Ok answer, c')
       /\ status answer = 200%nat
       /\ Forall2 (fun stored result =>
                     if has_slug slug stored
                     then coalesced (now e)
                            (update_params contentType ls lp) stored result
                     else result = stored)
                  (content_types (committed d))
                  (content_types (committed (db c'))).
Proof.
  intros Hv Hd Hn Hq. split.
  - intros p c. cbn [execute snd]. rewrite visible_write. cbn [content_types].
    apply Forall2_map_cases. intros r. apply update_keeps_or_coalesces.
  - assert (Hq' : quiet e 0 (path_length slug d normalized)).
    { unfold path_length. rewrite Hn. exact Hq. }
    destruct (import_quiet _ _ _ _ _ _ _ _ _ _ Hv Hd Hq') as (answer & c' & Hi & Hw).
    pose proof (write_path_run e d contentType slug ls lp normalized) as Hrun.
    rewrite Hw, Hn in Hrun. destruct Hrun as (_ & Hp & Ha & _ & Hdb).
    exists answer, c'. split; [exact Hi |]. split; [subst answer; reflexivity |].
    rewrite Hdb. cbn [committed content_types].
    apply Forall2_map_cases. intros r. apply update_keeps_or_coalesces.
Qed.

Lemma bind_nullish v : bind (nullish v VNull) = bind v.
Proof. destruct v; reflexivity. Qed.

Lemma bind_None v : bind v = None <-> v = VUndefined \/ v = VNull.
Proof.
  destruct v; simpl; split; intros H; auto; try discriminate;
    destruct H; discriminate.
Qed.

(** C9.  On the update path every parameter except the icon is non-null:
    the kind is the input or ["content"], the description the input or the
    empty string (so an absent description overwrites the stored one with
    [""]), the system flag the input when it is a boolean and false
    otherwise, the name and the plural label the plural label, the singular
    label the singular label.  Hence a re-import of an existing slug
    overwrites every attribute of the stored content type but the icon,
    whatever was stored, and keeps the stored icon exactly when the icon of
    the input is null or absent. *)
Theorem C9_update_overwrites_all_but_icon
    e d req_body contentType fields dryRun slug ls lp normalized r0 others :
  validate req_body = Ok (Accepted contentType fields dryRun slug ls lp normalized) ->
  truthy dryRun = false ->
  named slug d = r0 :: others ->
  quiet e 0 (5 + List.length normalized) ->
  let p := update_params contentType ls lp in
  let is_system :=
    match get contentType "is_system" with VBool b => b | _ => false end in
  (p_type p = Some (or (get contentType "type") (VStr "content"))
   /\ (truthy (get contentType "type") = false -> p_type p = Some (VStr "content"))
   /\ p_label_singular p = Some (VStr ls)
   /\ p_label_plural p = Some (VStr lp)
   /\ p_description p = Some (or (get contentType "description") (VStr ""))
   /\ (get contentType "description" = VUndefined ->
       p_description p = Some (VStr ""))
   /\ p_is_system p = Some (VBool is_system)
   /\ p_name p = Some (VStr lp)
   /\ p_icon p = bind (get contentType "icon")
   /\ (p_icon p = None <->
       get contentType "icon" = VUndefined \/ get contentType "icon" = VNull))
  /\ exists answer c',
       import e d req_body = (Ok answer, c')
       /\ status answer = 200%nat
       /\ Forall2 (fun stored result =>
                     if has_slug slug stored
                     then ct_type result =
                            Some (or (get contentType "type") (VStr "content"))
                          /\ ct_label_singular result = Some (VStr ls)
                          /\ ct_label_plural result = Some (VStr lp)
                          /\ ct_description result =
                               Some (or (get contentType "description") (VStr ""))
                          /\ ct_is_system result = Some (VBool is_system)
                          /\ ct_name result = Some (VStr lp)
                          /\ ct_icon result =
                               match bind (get contentType "icon") with
                               | Some icon => Some icon
                               | None => ct_icon stored
                               end
                     else result = stored)
                  (content_types (committed d))
                  (content_types (committed (db c'))).
Proof.
  intros Hv Hd Hn Hq p is_system.
  assert (Hparams :
            p_type p = Some (or (get contentType "type") (VStr "content"))
            /\ p_label_singular p = Some (VStr ls)
            /\ p_label_plural p = Some (VStr lp)
            /\ p_description p = Some (or (get contentType "description") (VStr ""))
            /\ p_is_system p = Some (VBool is_system)
            /\ p_name p = Some (VStr lp)
            /\ p_icon p = bind (get contentType "icon")).
  { unfold p, update_params, is_system; cbn [p_type p_label_singular p_label_plural
      p_description p_is_system p_name p_icon].
    rewrite !bind_or, bind_nullish. repeat split.
    destruct (get contentType "is_system"); reflexivity. }
  destruct Hparams as (P1 & P2 & P3 & P4 & P5 & P6 & P7).
  split.
  - repeat split; try assumption.
    + intros Hf. rewrite P1. unfold or. rewrite Hf. reflexivity.
    + intros Hf. rewrite P4, Hf. reflexivity.
    + rewrite P7. apply bind_None.
    + rewrite P7. apply bind_None.
  - assert (Hq' : quiet e 0 (path_length slug d normalized)).
    { unfold path_length. rewrite Hn. exact Hq. }
    destruct (import_quiet _ _ _ _ _ _ _ _ _ _ Hv Hd Hq') as (answer & c' & Hi & Hw).
    pose proof (write_path_run e d contentType slug ls lp normalized) as Hrun.
    rewrite Hw, Hn in Hrun. destruct Hrun as (_ & Hp & Ha & _ & Hdb).
    exists answer, c'. split; [exact Hi |]. split; [subst answer; reflexivity |].
    rewrite Hdb. cbn [committed content_types].
    apply Forall2_map_cases. intros r.
    destruct (has_slug slug r); [| reflexivity].
    fold p. cbn [updated_row ct_type ct_label_singular ct_label_plural
                 ct_description ct_is_system ct_name ct_icon].
    rewrite P1, P2, P3, P4, P5, P6, P7. repeat split.
Qed.

(* ------------------------------------------------------------------ *)
(** * The theorems at work on the examples of the specification *)

Lemma reliable_quiet start n : quiet reliable start n.
Proof. intros j Hj. reflexivity. Defined.

(** Re-importing [case] under new labels with the field [notes]: the stored
    row has the new labels and the description, and [status] is gone. *)
Lemma C1_reimport_case_with_notes :
  exists c',
    import reliable case_store body_renamed =
      (Ok {| status := 200;
             body := imported_json true
                       (Some (type_row
                                {| ct_id := 1; ct_slug := "case";
                                   ct_type := Some (VStr "content");
                                   ct_label_singular := Some (VStr "Matter");
                                   ct_label_plural := Some (VStr "Matters");
                                   ct_description := Some (VStr "Legal matters");
                                   ct_icon := None;
                                   ct_is_system := Some (VBool false);
                                   ct_name := Some (VStr "Matters");
                                   ct_updated_at := Some 1700000000%Z |}))
                       1 true |}, c')
    /\ map ct_label_singular (content_types (committed (db c')))
       = [Some (VStr "Matter")]
    /\ map ct_label_singular (content_types (committed case_store))
       = [Some (VStr "Case")]
    /\ map cf_field_key (content_fields (committed (db c'))) = ["notes"]
    /\ map cf_field_key (content_fields (committed case_store)) = ["status"].
Proof.
  destruct (C1_reimport_replaces_fields reliable case_store body_renamed
              _ _ _ _ _ _ _ _ _ eq_refl eq_refl eq_refl (reliable_quiet 0 _))
    as (c' & Hi & _ & _ & Ht & Hf & _).
  exists c'. rewrite Ht, Hf. split; [exact Hi |]. repeat split.
Defined.

(** Importing [case] into the empty store. *)
Lemma C2_import_case_into_fresh_store :
  map ct_slug
      (content_types (committed (db (snd (import reliable fresh_store body_status)))))
    = ["case"]
  /\ map cf_field_key
         (content_fields (committed (db (snd (import reliable fresh_store body_status)))))
       = ["status"].
Proof.
  destruct (C2_new_slug_creates reliable fresh_store body_status
              _ _ _ _ _ _ _ eq_refl eq_refl eq_refl (reliable_quiet 0 _))
    as (c' & Hi & _ & _ & Ht & Hf & _).
  rewrite Hi. cbn [snd]. rewrite Ht, Hf. split; reflexivity.
Defined.

Lemma fourth_raises_first : first_raise fourth_raises 0 3 "deadlock detected".
Proof.
  split; [| reflexivity].
  intros j Hj. destruct j as [|[|[|j]]]; [reflexivity | reflexivity | reflexivity | lia].
Defined.

(** The DELETE of a re-import raises: the store keeps [status]. *)
Lemma C3_delete_raises_on_reimport :
  committed (db (snd (import fourth_raises case_store body_notes))) = committed case_store
  /\ fst (import fourth_raises case_store body_notes) =
       Ok {| status := 500; body := failed_json ImportFailed "deadlock detected" |}
  /\ pending (snd (import fourth_raises case_store body_notes)) = None.
Proof.
  edestruct (C3_failure_rolls_back fourth_raises case_store body_notes)
    with (k := 3%nat) (message := "deadlock detected") as (Hc & _ & Hr).
  - reflexivity.
  - reflexivity.
  - vm_compute. lia.
  - exact fourth_raises_first.
  - split; [exact Hc | exact (Hr eq_refl)].
Defined.

(** Exactly 500 entries pass the ceiling. *)
Example five_hundred_fields_pass :
  fst (import reliable fresh_store body_500) =
    Ok {| status := 200; body := dryRun_json true true "case" true 500 500 |}.
Proof. vm_compute. reflexivity. Qed.

(** One body for each of the four checks. *)
Lemma C4_each_check_answers :
  rejected_with reliable fresh_store (VObj []) InvalidPayload
  /\ rejected_with reliable fresh_store body_blank_slug_501 (TooManyFields 501)
  /\ rejected_with reliable fresh_store body_blank_slug MissingRequiredAttributes
  /\ rejected_with reliable fresh_store body_blank_keys NoValidFields.
Proof.
  split; [| split; [| split]].
  - apply (proj1 (C4_checks_in_order reliable fresh_store (VObj []))).
    left. reflexivity.
  - refine (proj1 (proj1 (proj2 (C4_checks_in_order reliable fresh_store
                                   body_blank_slug_501))
                     (repeat VNull 501) eq_refl eq_refl) _).
    vm_compute. lia.
  - refine (proj1 (proj2 (proj2 (proj1 (proj2 (C4_checks_in_order reliable fresh_store
                                                 body_blank_slug))
                                   _ eq_refl eq_refl) _)
                     "" "Case" "Cases" eq_refl eq_refl eq_refl) _).
    + vm_compute. lia.
    + left. reflexivity.
  - refine (proj2 (proj2 (proj2 (proj1 (proj2 (C4_checks_in_order reliable fresh_store
                                                 body_blank_keys))
                                   _ eq_refl eq_refl) _)
                     "case" "Case" "Cases" eq_refl eq_refl eq_refl) _ _ _ eq_refl).
    + vm_compute. lia.
    + discriminate.
    + discriminate.
    + discriminate.
Defined.

(** A dry run of three entries, one of which has a key. *)
Lemma C5_dry_run_of_case :
  fst (import reliable fresh_store body_dry) =
    Ok {| status := 200; body := dryRun_json true true "case" true 3 1 |}
  /\ trace (snd (import reliable fresh_store body_dry)) = [].
Proof.
  edestruct (C5_dry_run reliable fresh_store body_dry) as (c' & Hi & Ht & _).
  - reflexivity.
  - reflexivity.
  - rewrite Hi. split; [reflexivity | exact Ht].
Defined.

(** The re-import of [case] leaves its row coalesced with the parameters. *)
Lemma C6_reimport_case_coalesces :
  exists answer c',
    import reliable case_store body_notes = (Ok answer, c')
    /\ Forall2 (fun stored result =>
                  if has_slug "case" stored
                  then coalesced (now reliable)
                         (update_params obj_case "Case" "Cases") stored result
                  else result = stored)
               (content_types (committed case_store))
               (content_types (committed (db c'))).
Proof.
  edestruct (C6_update_coalesces reliable case_store body_notes)
    as (_ & answer & c' & Hi & _ & Hf).
  - reflexivity.
  - reflexivity.
  - reflexivity.
  - apply reliable_quiet.
  - exists answer, c'. split; [exact Hi | exact Hf].
Defined.


(** A blank slug with one field. *)
Lemma C8_blank_slug_is_missing :
  rejected_with reliable fresh_store body_blank_slug MissingRequiredAttributes.
Proof.
  refine (proj1 (C8_required_attributes reliable fresh_store body_blank_slug
                   _ "   " "Case" "Cases" eq_refl eq_refl _ eq_refl eq_refl eq_refl) _).
  - vm_compute. lia.
  - left. reflexivity.
Defined.

(** The re-import of [case] without an icon keeps the stored icon. *)
Lemma C9_reimport_case_overwrites :
  p_icon (update_params obj_case "Case" "Cases") = None
  /\ p_description (update_params obj_case "Case" "Cases") = Some (VStr "")
  /\ exists answer c', import reliable case_store body_notes = (Ok answer, c').
Proof.
  edestruct (C9_update_overwrites_all_but_icon reliable case_store body_notes)
    as ((_ & _ & _ & _ & _ & Hd & _ & _ & _ & Hi) & answer & c' & Himp & _).
  - reflexivity.
  - reflexivity.
  - reflexivity.
  - apply reliable_quiet.
  - split; [apply Hi; left; reflexivity |].
    split; [apply Hd; reflexivity |].
    exists answer, c'. exact Himp.
Defined.

(** A string for [contentType] with one field. *)
Lemma C10_string_contentType_is_missing :
  rejected_with reliable fresh_store body_string_type MissingRequiredAttributes.
Proof.
  refine (proj2 (proj2 (proj2 (proj2 (C10_primitive_contentType reliable fresh_store
                                        body_string_type _ eq_refl eq_refl eq_refl) _)))).
  vm_compute. lia.
Defined.

(* ------------------------------------------------------------------ *)
(** * The whole handler: every way out *)








(** What the handler does when a conversion throws before BEGIN. *)
Lemma import_of_throw e d req_body message :
  validate req_body = Throw message ->
  import e d req_body =
    match raises e 0 with
    | Some m => (Throw m, sent ROLLBACK (connect d))
    | None =>
        (Ok {| status := 500; body := failed_json ImportFailed message |},
         {| db := d; pending := None; trace := [ROLLBACK] |})
    end.
Proof.
  intros H. unfold import, handler, try_catch. rewrite H.
  unfold throw, bindM, query. cbn [connect trace List.length].
  destruct (raises e 0); reflexivity.
Qed.

(** X1.  All or nothing: whatever the body, the stored tables and the
    statements that raise, the committed tables after the call are those
    before it unless the handler answers with the success of an import. *)
Theorem X1_all_or_nothing e d req_body :
  committed (db (snd (import e d req_body))) = committed d
  \/ exists row n replaced,
       fst (import e d req_body) =
         Ok {| status := 200; body := imported_json true (Some row) n replaced |}.
Proof.
  destruct (validate req_body)
    as [[error | ct fs dry slug ls lp normalized] | message] eqn:Hv.
  - left. unfold import. rewrite (handler_rejected _ _ _ _ Hv). reflexivity.
  - destruct (truthy dry) eqn:Hd.
    + left. unfold import.
      rewrite (handler_dryRun _ _ _ _ _ _ _ _ _ _ Hv Hd). reflexivity.
    + unfold import. rewrite (handler_writes _ _ _ _ _ _ _ _ _ _ Hv Hd).
      unfold try_catch.
      pose proof (write_path_run e d ct slug ls lp normalized) as Hrun.
      destruct (write_path e ct slug ls lp normalized (connect d))
        as [[answer|m] c1].
      * right. destruct Hrun as (_ & _ & Hrun).
        destruct (named slug d); destruct Hrun as (-> & _); cbn [fst];
          eexists _, _, _; reflexivity.
      * left. destruct Hrun as (k & _ & _ & _ & Hc).
        unfold bindM, query.
        destruct (raises e (List.length (trace c1))); cbn [execute fst snd ret sent db];
          exact Hc.
  - left. rewrite (import_of_throw _ _ _ _ Hv).
    destruct (raises e 0); reflexivity.
Qed.

(** X2.  Every answer of the handler is one of four: a 400 with an error, on
    an untouched connection; the 200 of a dry run, on an untouched
    connection; the 200 of an import; a 500 with error [Import failed] after
    a ROLLBACK, with the committed tables as before the call.  None leaves a
    transaction open. *)
Theorem X2_answers e d req_body answer c' :
  import e d req_body = (Ok answer, c') ->
  pending c' = None
  /\ ((status answer = 400%nat /\ c' = connect d
       /\ exists error, body answer = error_json error)
      \/ (status answer = 200%nat /\ c' = connect d
          /\ exists slug provided kept,
               body answer = dryRun_json true true slug true provided kept)
      \/ (status answer = 200%nat
          /\ exists row n replaced,
               body answer = imported_json true (Some row) n replaced)
      \/ (status answer = 500%nat
          /\ committed (db c') = committed d
          /\ (exists before, trace c' = before ++ [ROLLBACK])
          /\ exists message, body answer = failed_json ImportFailed message)).
Proof.
  destruct (validate req_body)
    as [[error | ct fs dry slug ls lp normalized] | message] eqn:Hv.
  - unfold import. rewrite (handler_rejected _ _ _ _ Hv).
    intros H; injection H as <- <-. split; [reflexivity |].
    left. repeat split. eexists; reflexivity.
  - destruct (truthy dry) eqn:Hd.
    + unfold import. rewrite (handler_dryRun _ _ _ _ _ _ _ _ _ _ Hv Hd).
      intros H; injection H as <- <-. split; [reflexivity |].
      right; left. repeat split. eexists _, _, _; reflexivity.
    + unfold import. rewrite (handler_writes _ _ _ _ _ _ _ _ _ _ Hv Hd).
      unfold try_catch.
      pose proof (write_path_run e d ct slug ls lp normalized) as Hrun.
      destruct (write_path e ct slug ls lp normalized (connect d))
        as [[answer1|m] c1].
      * intros H; injection H as <- <-. destruct Hrun as (_ & Hp & Hrun).
        split; [exact Hp |]. right; right; left.
        destruct (named slug d); destruct Hrun as (-> & _); cbn [status body];
          (split; [reflexivity | eexists _, _, _; reflexivity]).
      * destruct Hrun as (k & _ & _ & _ & Hc).
        unfold bindM, query.
        destruct (raises e (List.length (trace c1)));
          cbn [execute fst snd ret sent db]; [discriminate |].
        intros H; injection H as <- <-. split; [reflexivity |].
        right; right; right. cbn [status body db trace]. repeat split.
        -- exact Hc.
        -- exists (trace c1). reflexivity.
        -- eexists; reflexivity.
  - rewrite (import_of_throw _ _ _ _ Hv).
    destruct (raises e 0); [discriminate |].
    intros H; injection H as <- <-. split; [reflexivity |].
    right; right; right. cbn [status body db trace]. repeat split.
    + exists []. reflexivity.
    + eexists; reflexivity.
Qed.

(** X3.  When the ROLLBACK of the catch block raises as well, the handler
    gives no answer: the error of the ROLLBACK leaves it, the message of
    the statement that raised first is not in it, and the committed tables
    are still those from before the call. *)
Theorem X3_rollback_raises
    e d req_body contentType fields dryRun slug ls lp normalized k message message' :
  validate req_body = Ok (Accepted contentType fields dryRun slug ls lp normalized) ->
  truthy dryRun = false ->
  (k < path_length slug d normalized)%nat ->
  first_raise e 0 k message ->
  raises e (S k) = Some message' ->
  fst (import e d req_body) = Throw message'
  /\ committed (db (snd (import e d req_body))) = committed d
  /\ exists before,
       trace (snd (import e d req_body)) = before ++ [ROLLBACK]
       /\ List.length before = S k.
Proof.
  intros Hv Hd Hk Hfr Hr. unfold import.
  rewrite (handler_writes _ _ _ _ _ _ _ _ _ _ Hv Hd). unfold try_catch.
  pose proof (write_path_run e d contentType slug ls lp normalized) as Hrun.
  destruct (write_path e contentType slug ls lp normalized (connect d))
    as [[answer|m] c1].
  - destruct Hrun as (Hq & _).
    pose proof (quiet_no_raise _ _ _ _ _ Hq Hfr). lia.
  - destruct Hrun as (k' & Hk' & Hfr' & Ht & Hc).
    destruct (first_raise_unique _ _ _ _ _ _ Hfr' Hfr) as [-> ->].
    unfold bindM, query. rewrite Ht, Hr. cbn [fst snd sent db trace].
    repeat split; [exact Hc |].
    exists (trace c1). split; [reflexivity | exact Ht].
Qed.


(* ------------------------------------------------------------------ *)
(** * INSERT against UPDATE *)

(** X5.  The INSERT and the UPDATE bind the same parameters but for the
    system flag: the INSERT binds its truth value, the UPDATE the input only
    when it is a boolean and false otherwise.  They agree exactly when the
    input is a boolean or falsy; a truthy input that is not a boolean (1,
    ["yes"]) is stored true when the content type is created and false when
    it is imported again. *)
Theorem X5_system_flag_differs contentType ls lp :
  let i := insert_params contentType ls lp in
  let u := update_params contentType ls lp in
  p_type i = p_type u
  /\ p_label_singular i = p_label_singular u
  /\ p_label_plural i = p_label_plural u
  /\ p_description i = p_description u
  /\ p_icon i = p_icon u
  /\ p_name i = p_name u
  /\ (p_is_system i = p_is_system u <->
      (exists b, get contentType "is_system" = VBool b)
      \/ truthy (get contentType "is_system") = false)
  /\ (truthy (get contentType "is_system") = true ->
      (forall b, get contentType "is_system" <> VBool b) ->
      p_is_system i = Some (VBool true) /\ p_is_system u = Some (VBool false)).
Proof.
  intros i u. subst i u. unfold insert_params, update_params.
  cbn [p_type p_label_singular p_label_plural p_description p_icon p_name p_is_system].
  repeat (split; [reflexivity |]).
  destruct (get contentType "is_system") as [| | b | n | s | items | props] eqn:E;
    cbn [truthy bind].
  - split; [split; [intros _; right; reflexivity | reflexivity] | discriminate].
  - split; [split; [intros _; right; reflexivity | reflexivity] | discriminate].
  - split; [split; [intros _; left; eexists; reflexivity | reflexivity] |].
    intros _ H. exfalso. exact (H b eq_refl).
  - destruct (n =? 0)%Z; cbn [negb].
    + split; [split; [intros _; right; reflexivity | reflexivity] | discriminate].
    + split; [| intros _ _; split; reflexivity].
      split; [discriminate |]. intros [[b Hb] | Hf]; discriminate.
  - destruct (s =? ""); cbn [negb].
    + split; [split; [intros _; right; reflexivity | reflexivity] | discriminate].
    + split; [| intros _ _; split; reflexivity].
      split; [discriminate |]. intros [[b Hb] | Hf]; discriminate.
  - split; [| intros _ _; split; reflexivity].
    split; [discriminate |]. intros [[b Hb] | Hf]; discriminate.
  - split; [| intros _ _; split; reflexivity].
    split; [discriminate |]. intros [[b Hb] | Hf]; discriminate.
Qed.

(* ------------------------------------------------------------------ *)
(** * Importing the same body again *)

Lemma COALESCE_idempotent {A} (p x : option A) :
  COALESCE p (COALESCE p x) = COALESCE p x.
Proof. destruct p; reflexivity. Qed.

Lemma updated_row_idempotent now p r :
  updated_row now p (updated_row now p r) = updated_row now p r.
Proof.
  unfold updated_row; simpl. rewrite !COALESCE_idempotent. reflexivity.
Qed.

Lemma has_slug_updated slug now p r :
  has_slug slug (updated_row now p r) = has_slug slug r.
Proof. reflexivity. Qed.

Lemma named_after_update slug now p l :
  filter (has_slug slug)
         (map (fun r => if has_slug slug r then updated_row now p r else r) l)
  = map (updated_row now p) (filter (has_slug slug) l).
Proof.
  induction l as [|r rest IH]; simpl; [reflexivity |].
  destruct (has_slug slug r) eqn:E.
  - rewrite has_slug_updated, E. simpl. rewrite IH. reflexivity.
  - rewrite E. exact IH.
Qed.

Lemma update_twice slug now p l :
  map (fun r => if has_slug slug r then updated_row now p r else r)
      (map (fun r => if has_slug slug r then updated_row now p r else r) l)
  = map (fun r => if has_slug slug r then updated_row now p r else r) l.
Proof.
  rewrite map_map. apply map_ext. intros r.
  destruct (has_slug slug r) eqn:E.
  - rewrite has_slug_updated, E. apply updated_row_idempotent.
  - rewrite E. reflexivity.
Qed.

Lemma update_of_unnamed slug now p l :
  filter (has_slug slug) l = [] ->
  map (fun r => if has_slug slug r then updated_row now p r else r) l = l.
Proof.
  induction l as [|r rest IH]; simpl; [reflexivity |].
  destruct (has_slug slug r); [discriminate |].
  intros H. rewrite (IH H). reflexivity.
Qed.

Lemma delete_field_rows id first normalized :
  filter (fun f => negb (cf_content_type_id f =? id)%Z) (field_rows id first normalized)
  = [].
Proof.
  revert first. induction normalized as [|f rest IH]; intros first; simpl;
    [reflexivity |].
  rewrite Z.eqb_refl. simpl. apply IH.
Qed.

Lemma delete_twice id (l : list content_field_row) :
  filter (fun f => negb (cf_content_type_id f =? id)%Z)
         (filter (fun f => negb (cf_content_type_id f =? id)%Z) l)
  = filter (fun f => negb (cf_content_type_id f =? id)%Z) l.
Proof.
  induction l as [|r rest IH]; simpl; [reflexivity |].
  destruct (negb (cf_content_type_id r =? id)%Z) eqn:E; simpl.
  - rewrite E, IH. reflexivity.
  - exact IH.
Qed.

(** A request that reaches the write path and meets no error, with the
    store it leaves. *)
Lemma import_succeeds e d req_body contentType fields dryRun slug ls lp normalized :
  validate req_body = Ok (Accepted contentType fields dryRun slug ls lp normalized) ->
  truthy dryRun = false ->
  quiet e 0 (path_length slug d normalized) ->
  exists answer c',
    import e d req_body = (Ok answer, c')
    /\ pending c' = None
    /\ match named slug d with
       | [] =>
           let r := inserted_type (type_seq d) slug
                      (insert_params contentType ls lp) in
           answer =
             {| status := 200;
                body := imported_json true (Some (type_row r))
                          (List.length normalized) false |}
           /\ db c' =
                {| committed :=
                     {| content_types := content_types (committed d) ++ [r];
                        content_fields :=
                          content_fields (committed d)
                            ++ field_rows (type_seq d) (field_seq d) normalized |};
                   type_seq := type_seq d + 1;
                   field_seq := field_seq d + Z.of_nat (List.length normalized) |}
       | r0 :: _ =>
           let p := update_params contentType ls lp in
           answer =
             {| status := 200;
                body := imported_json true (Some (type_row (updated_row (now e) p r0)))
                          (List.length normalized) true |}
           /\ db c' =
                {| committed :=
                     {| content_types :=
                          map (fun r => if has_slug slug r
                                        then updated_row (now e) p r else r)
                              (content_types (committed d));
                        content_fields :=
                          filter (fun f => negb (cf_content_type_id f =? ct_id r0)%Z)
                                 (content_fields (committed d))
                            ++ field_rows (ct_id r0) (field_seq d) normalized |};
                   type_seq := type_seq d;
                   field_seq := field_seq d + Z.of_nat (List.length normalized) |}
       end.
Proof.
  intros Hv Hd Hq.
  destruct (import_quiet _ _ _ _ _ _ _ _ _ _ Hv Hd Hq) as (answer & c' & Hi & Hw).
  pose proof (write_path_run e d contentType slug ls lp normalized) as Hrun.
  rewrite Hw in Hrun. destruct Hrun as (_ & Hp & Hrun).
  exists answer, c'. split; [exact Hi |]. split; [exact Hp |].
  destruct (named slug d); destruct Hrun as (Ha & _ & Hdb); split; assumption.
Qed.

(** X6.  Importing a body again is idempotent on what is stored, but for the
    ids of the fields: after a re-import of an existing slug, a second
    re-import of the same body at the same time gives the same answer, leaves
    the content types as they are, and replaces the field rows of the first
    by rows of the same content under the next ids. *)
Theorem X6_reimport_twice
    e1 e2 d req_body contentType fields dryRun slug ls lp normalized r0 others :
  validate req_body = Ok (Accepted contentType fields dryRun slug ls lp normalized) ->
  truthy dryRun = false ->
  named slug d = r0 :: others ->
  quiet e1 0 (5 + List.length normalized) ->
  quiet e2 0 (5 + List.length normalized) ->
  now e2 = now e1 ->
  let kept :=
    filter (fun f => negb (cf_content_type_id f =? ct_id r0)%Z)
           (content_fields (committed d)) in
  let n := Z.of_nat (List.length normalized) in
  exists answer c1 c2,
    import e1 d req_body = (Ok answer, c1)
    /\ import e2 (db c1) req_body = (Ok answer, c2)
    /\ content_types (committed (db c2)) = content_types (committed (db c1))
    /\ content_fields (committed (db c1)) =
         kept ++ field_rows (ct_id r0) (field_seq d) normalized
    /\ content_fields (committed (db c2)) =
         kept ++ field_rows (ct_id r0) (field_seq d + n) normalized.
Proof.
  intros Hv Hd Hn Hq1 Hq2 Hnow kept n.
  assert (Hq1' : quiet e1 0 (path_length slug d normalized))
    by (unfold path_length; rewrite Hn; exact Hq1).
  destruct (import_succeeds _ _ _ _ _ _ _ _ _ _ Hv Hd Hq1')
    as (a1 & c1 & Hi1 & _ & H1).
  rewrite Hn in H1. cbv zeta in H1. destruct H1 as [-> Hdb1].
  assert (Hn1 : named slug (db c1)
                = map (updated_row (now e1) (update_params contentType ls lp))
                      (r0 :: others)).
  { unfold named. rewrite Hdb1. cbn [committed content_types].
    rewrite named_after_update. fold (named slug d). rewrite Hn. reflexivity. }
  cbn [map] in Hn1.
  assert (Hq2' : quiet e2 0 (path_length slug (db c1) normalized))
    by (unfold path_length; rewrite Hn1; exact Hq2).
  destruct (import_succeeds _ _ _ _ _ _ _ _ _ _ Hv Hd Hq2')
    as (a2 & c2 & Hi2 & _ & H2).
  rewrite Hn1 in H2. cbv zeta in H2. destruct H2 as [-> Hdb2].
  rewrite Hnow in *. rewrite updated_row_idempotent in Hi2.
  eexists _, c1, c2. split; [exact Hi1 |]. split; [exact Hi2 |].
  rewrite Hdb2, Hdb1. cbn [committed content_types content_fields field_seq ct_id updated_row].
  rewrite update_twice. repeat split.
  rewrite filter_app, delete_twice, delete_field_rows, app_nil_r. reflexivity.
Qed.

Lemma COALESCE_same {A} (x : option A) : COALESCE x x = x.
Proof. destruct x; reflexivity. Qed.

Lemma COALESCE_Some {A} (v : A) (x : option A) : COALESCE (Some v) x = Some v.
Proof. reflexivity. Qed.

(** X7.  Creating a content type and importing the same body again: the
    second import finds the row of the first, answers [replacedExisting:
    true], and leaves that row as created but for the modification time and
    the system flag, which is now the one the UPDATE binds; the fields of
    the first import are replaced by rows of the same content under the
    next ids. *)
Theorem X7_create_then_reimport
    e1 e2 d req_body contentType fields dryRun slug ls lp normalized :
  validate req_body = Ok (Accepted contentType fields dryRun slug ls lp normalized) ->
  truthy dryRun = false ->
  named slug d = [] ->
  quiet e1 0 (4 + List.length normalized) ->
  quiet e2 0 (5 + List.length normalized) ->
  let r := inserted_type (type_seq d) slug (insert_params contentType ls lp) in
  let r' :=
    {| ct_id := ct_id r;
       ct_slug := ct_slug r;
       ct_type := ct_type r;
       ct_label_singular := ct_label_singular r;
       ct_label_plural := ct_label_plural r;
       ct_description := ct_description r;
       ct_icon := ct_icon r;
       ct_is_system := p_is_system (update_params contentType ls lp);
       ct_name := ct_name r;
       ct_updated_at := Some (now e2) |} in
  let n := List.length normalized in
  exists c1 c2,
    import e1 d req_body =
      (Ok {| status := 200; body := imported_json true (Some (type_row r)) n false |},
       c1)
    /\ import e2 (db c1) req_body =
         (Ok {| status := 200; body := imported_json true (Some (type_row r')) n true |},
          c2)
    /\ content_types (committed (db c2)) = content_types (committed d) ++ [r']
    /\ content_fields (committed (db c2)) =
         filter (fun f => negb (cf_content_type_id f =? type_seq d)%Z)
                (content_fields (committed d))
           ++ field_rows (type_seq d) (field_seq d + Z.of_nat n) normalized.
Proof.
  intros Hv Hd Hn Hq1 Hq2 r r' n.
  assert (Hq1' : quiet e1 0 (path_length slug d normalized))
    by (unfold path_length; rewrite Hn; exact Hq1).
  destruct (import_succeeds _ _ _ _ _ _ _ _ _ _ Hv Hd Hq1')
    as (a1 & c1 & Hi1 & _ & H1).
  rewrite Hn in H1. cbv zeta in H1. fold r in H1. destruct H1 as [-> Hdb1].
  assert (Hn1 : named slug (db c1) = [r]).
  { unfold named. rewrite Hdb1. cbn [committed content_types].
    rewrite filter_app. fold (named slug d). rewrite Hn. cbn [filter app].
    unfold has_slug at 1. cbn [r inserted_type ct_slug]. rewrite String.eqb_refl.
    reflexivity. }
  assert (Hq2' : quiet e2 0 (path_length slug (db c1) normalized))
    by (unfold path_length; rewrite Hn1; exact Hq2).
  destruct (import_succeeds _ _ _ _ _ _ _ _ _ _ Hv Hd Hq2')
    as (a2 & c2 & Hi2 & _ & H2).
  rewrite Hn1 in H2. cbv zeta in H2. destruct H2 as [-> Hdb2].
  assert (Hr' : updated_row (now e2) (update_params contentType ls lp) r = r').
  { unfold updated_row, r', r, inserted_type, insert_params, update_params.
    cbn [ct_id ct_slug ct_type ct_label_singular ct_label_plural ct_description
         ct_icon ct_is_system ct_name p_type p_label_singular p_label_plural
         p_description p_icon p_is_system p_name].
    rewrite !COALESCE_same.
    f_equal. destruct (get contentType "is_system"); reflexivity. }
  rewrite Hr' in Hi2.
  exists c1, c2. split; [exact Hi1 |]. split; [exact Hi2 |].
  rewrite Hdb2, Hdb1.
  cbn [committed content_types content_fields field_seq].
  split.
  - rewrite map_app. cbn [map].
    rewrite (update_of_unnamed slug _ _ _ Hn).
    unfold has_slug. cbn [r inserted_type ct_slug]. rewrite String.eqb_refl.
    rewrite Hr'. reflexivity.
  - rewrite filter_app. cbn [r inserted_type ct_id].
    rewrite delete_field_rows, app_nil_r. reflexivity.
Qed.

(* ------------------------------------------------------------------ *)
(** * What the field rows look like *)

Lemma first_of_trimmed v a b s : first_of v a b = Ok s -> trimmed s.
Proof.
  intros H. apply first_of_spec in H. destruct H as (raw & _ & ->).
  apply trim_idempotent.
Qed.

Lemma nullish_defined v : nullish v VNull <> VUndefined.
Proof. destruct v; discriminate. Qed.

Lemma normalizeField_kept f index nf :
  normalizeField f index = Ok (Some nf) ->
  field_key nf <> ""
  /\ trimmed (field_key nf) /\ trimmed (label nf) /\ trimmed (type nf)
  /\ trimmed (help_text nf)
  /\ config nf =
       VObj [("optionsSource", nullish (get f "optionsSource") VNull);
             ("options", nullish (get f "options") VNull);
             ("relation", nullish (get f "relation") VNull)].
Proof.
  unfold normalizeField.
  destruct (first_of f "key" "field_key") as [k|] eqn:Hk; cbn [rbind]; [| discriminate].
  destruct (k =? "") eqn:He; [discriminate |]. apply String.eqb_neq in He.
  destruct (String_ (or (get f "label") (VStr k))) as [l|]; cbn [rbind]; [| discriminate].
  destruct (String_ (or (get f "type") (VStr "text"))) as [t|]; cbn [rbind]; [| discriminate].
  destruct (String_ (or (get f "help_text") (VStr ""))) as [h|]; cbn [rbind]; [| discriminate].
  intros H; injection H as <-. cbn [field_key label type help_text config].
  repeat split; try apply trim_idempotent; try assumption.
  exact (first_of_trimmed _ _ _ _ Hk).
Qed.

Lemma map_fields_kept fields : forall index mapped,
  map_fields fields index = Ok mapped ->
  Forall (fun nf => exists f i, normalizeField f i = Ok (Some nf))
         (filter_Boolean mapped).
Proof.
  induction fields as [|f rest IH]; intros index mapped; cbn [map_fields].
  - intros H; injection H as <-. constructor.
  - destruct (normalizeField f index) as [x|] eqn:Hx; cbn [rbind]; [| discriminate].
    destruct (map_fields rest (S index)) as [xs|] eqn:Hxs; cbn [rbind]; [| discriminate].
    intros H; injection H as <-. specialize (IH _ _ Hxs).
    destruct x as [nf|]; cbn [filter_Boolean]; [| exact IH].
    constructor; [exists f, index; exact Hx | exact IH].
Qed.

Lemma field_row_well_formed f index nf content_type_id id :
  normalizeField f index = Ok (Some nf) ->
  well_formed_field (field_row_of content_type_id id nf).
Proof.
  intros H. destruct (normalizeField_kept _ _ _ H) as (Hk & Tk & Tl & Tt & Th & Hc).
  unfold well_formed_field, field_row_of.
  cbn [cf_field_key cf_label cf_type cf_help_text cf_config].
  split; [exact Hk |]. split; [exact Tk |]. split; [exact Tl |].
  assert (Hty : str_or (type nf) "text" <> "" /\ trimmed (str_or (type nf) "text")).
  { unfold str_or. destruct (type nf =? "") eqn:E.
    - split; [discriminate | reflexivity].
    - apply String.eqb_neq in E. split; assumption. }
  destruct Hty as [Hty1 Hty2]. split; [exact Hty1 |]. split; [exact Hty2 |].
  split.
  - unfold str_or. destruct (help_text nf =? "") eqn:E; [reflexivity | exact Th].
  - rewrite Hc. cbn [or truthy]. eexists _, _, _. split; [reflexivity |].
    repeat split; apply nullish_defined.
Qed.

Lemma field_rows_well_formed content_type_id normalized : forall first,
  Forall (fun nf => exists f i, normalizeField f i = Ok (Some nf)) normalized ->
  Forall well_formed_field (field_rows content_type_id first normalized).
Proof.
  induction normalized as [|nf rest IH]; intros first H; cbn [field_rows];
    constructor.
  - apply Forall_inv in H. destruct H as (f & i & H).
    exact (field_row_well_formed _ _ _ _ _ H).
  - apply IH. exact (Forall_inv_tail H).
Qed.

Lemma incl_filter {A} (p : A -> bool) (l : list A) : incl (filter p l) l.
Proof. intros x Hx. apply filter_In in Hx. apply Hx. Qed.

(** X8.  Whatever the entries of the body, the rows an import adds to
    [content_fields] are well formed: the key is not empty and has no white
    space around it, the type is not empty, label, type and help text are in
    trimmed form, and the config is an object of [optionsSource], [options]
    and [relation], none of them undefined.  They come after the rows that
    were kept, which are rows that were there. *)
Theorem X8_field_rows_well_formed
    e d req_body contentType fields dryRun slug ls lp normalized :
  validate req_body = Ok (Accepted contentType fields dryRun slug ls lp normalized) ->
  truthy dryRun = false ->
  quiet e 0 (path_length slug d normalized) ->
  exists answer c' kept inserted,
    import e d req_body = (Ok answer, c')
    /\ content_fields (committed (db c')) = kept ++ inserted
    /\ incl kept (content_fields (committed d))
    /\ List.length inserted = List.length normalized
    /\ Forall well_formed_field inserted.
Proof.
  intros Hv Hd Hq.
  destruct (validate_accepted _ _ _ _ _ _ _ _ Hv)
    as (_ & _ & _ & _ & _ & _ & _ & _ & _ & _ & _ & Hn & _).
  assert (Hall : Forall (fun nf => exists f i, normalizeField f i = Ok (Some nf))
                        normalized).
  { unfold normalizedFields in Hn.
    destruct (map_fields fields 0) as [mapped|] eqn:Hm; cbn [rbind] in Hn;
      [| discriminate].
    injection Hn as <-. exact (map_fields_kept _ _ _ Hm). }
  destruct (import_succeeds _ _ _ _ _ _ _ _ _ _ Hv Hd Hq)
    as (answer & c' & Hi & _ & H).
  exists answer, c'.
  destruct (named slug d) as [|r0 others]; cbv zeta in H; destruct H as [_ Hdb];
    rewrite Hdb; cbn [committed content_fields].
  - eexists _, _. split; [exact Hi |]. split; [reflexivity |].
    split; [apply incl_refl |]. split; [apply field_rows_length |].
    apply field_rows_well_formed, Hall.
  - eexists _, _. split; [exact Hi |]. split; [reflexivity |].
    split; [apply incl_filter |]. split; [apply field_rows_length |].
    apply field_rows_well_formed, Hall.
Qed.

(* ------------------------------------------------------------------ *)
(** * Normalization does not merge *)







(* ------------------------------------------------------------------ *)
(** * The row in the answer, and the dry run before the import *)

Lemma named_in slug d r others :
  named slug d = r :: others -> In r (content_types (committed d)).
Proof.
  unfold named. intros H.
  assert (Hin : In r (filter (has_slug slug) (content_types (committed d))))
    by (rewrite H; left; reflexivity).
  apply filter_In in Hin. apply Hin.
Qed.

(** X10.  The content type in the answer of an import is a row of the
    committed table, under the slug of the request, which is not empty and
    has no white space around it; its name is its plural label, the plural
    label of the request; its kind, description and system flag are not
    null.  [replacedExisting] tells whether the slug named a row before. *)
Theorem X10_answered_row_is_stored
    e d req_body contentType fields dryRun slug ls lp normalized :
  validate req_body = Ok (Accepted contentType fields dryRun slug ls lp normalized) ->
  truthy dryRun = false ->
  quiet e 0 (path_length slug d normalized) ->
  exists c' row,
    import e d req_body =
      (Ok {| status := 200;
             body := imported_json true (Some (type_row row))
                       (List.length normalized)
                       (match named slug d with [] => false | _ :: _ => true end) |},
       c')
    /\ In row (content_types (committed (db c')))
    /\ ct_slug row = slug /\ slug <> "" /\ trimmed slug
    /\ ct_label_plural row = Some (VStr lp)
    /\ ct_name row = Some (VStr lp)
    /\ ct_label_singular row = Some (VStr ls)
    /\ (exists kind, ct_type row = Some kind /\ truthy kind = true)
    /\ (exists description, ct_description row = Some description)
    /\ (exists flag, ct_is_system row = Some (VBool flag)).
Proof.
  intros Hv Hd Hq.
  destruct (validate_accepted _ _ _ _ _ _ _ _ Hv)
    as (_ & _ & _ & _ & _ & Hs & _ & _ & N1 & _ & _ & _ & _).
  pose proof (first_of_trimmed _ _ _ _ Hs) as Ts.
  destruct (import_succeeds _ _ _ _ _ _ _ _ _ _ Hv Hd Hq)
    as (answer & c' & Hi & _ & H).
  assert (Hkind : exists kind,
             bind (or (get contentType "type") (VStr "content")) = Some kind
             /\ truthy kind = true).
  { rewrite bind_or. eexists. split; [reflexivity |].
    unfold or. destruct (truthy (get contentType "type")) eqn:E; [exact E | reflexivity]. }
  destruct Hkind as (kind & Hkind & Tkind).
  destruct (named slug d) as [|r0 others] eqn:Hn; cbv zeta in H;
    destruct H as [-> Hdb]; exists c'; eexists; (split; [exact Hi |]);
    rewrite Hdb; cbn [committed content_types].
  - split; [apply in_or_app; right; left; reflexivity |].
    unfold inserted_type, insert_params.
    cbn [ct_slug ct_label_plural ct_name ct_label_singular ct_type ct_description
         ct_is_system p_type p_label_singular p_label_plural p_description
         p_is_system p_name bind].
    repeat split; try assumption.
    + exists kind. split; assumption.
    + rewrite bind_or. eexists; reflexivity.
    + eexists; reflexivity.
  - pose proof (named_has_slug _ _ _ _ Hn) as Hslug.
    split.
    + apply in_map_iff. exists r0. split; [| exact (named_in _ _ _ _ Hn)].
      unfold has_slug. rewrite Hslug, String.eqb_refl. reflexivity.
    + unfold updated_row, update_params.
      cbn [ct_slug ct_label_plural ct_name ct_label_singular ct_type ct_description
           ct_is_system p_type p_label_singular p_label_plural p_description
           p_is_system p_name].
      rewrite Hkind, bind_or. cbn [bind COALESCE].
      repeat split; try assumption.
      * exists kind. split; [reflexivity | exact Tkind].
      * eexists; reflexivity.
      * destruct (get contentType "is_system"); cbn [bind COALESCE];
          eexists; reflexivity.
Qed.

Lemma validate_same_parts body1 body2 :
  get (or body2 (VObj [])) "contentType" = get (or body1 (VObj [])) "contentType" ->
  get (or body2 (VObj [])) "fields" = get (or body1 (VObj [])) "fields" ->
  match validate body1 with
  | Ok (Accepted contentType fields _ slug ls lp normalized) =>
      validate body2 =
        Ok (Accepted contentType fields
              (match get (or body2 (VObj [])) "dryRun" with
               | VUndefined => VBool false
               | v => v
               end) slug ls lp normalized)
  | other => validate body2 = other
  end.
Proof.
  intros Hc Hf. unfold validate. rewrite Hc, Hf.
  destruct (negb (truthy (get (or body1 (VObj [])) "contentType"))
            || negb (isArray (get (or body1 (VObj [])) "fields")));
    [reflexivity |].
  destruct (MAX_FIELDS <? _)%nat; [reflexivity |].
  destruct (first_of _ "slug" "key") as [slug|m]; cbn [rbind]; [| reflexivity].
  destruct (first_of _ "singular" "label_singular") as [ls|m]; cbn [rbind];
    [| reflexivity].
  destruct (first_of _ "plural" "label_plural") as [lp|m]; cbn [rbind];
    [| reflexivity].
  destruct ((slug =? "") || (ls =? "") || (lp =? "")); [reflexivity |].
  destruct (normalizedFields _) as [normalized|m]; cbn [rbind]; [| reflexivity].
  destruct (List.length normalized =? 0)%nat; reflexivity.
Qed.

(** X11.  A dry run tells what the import will do: the checks read the
    [contentType] and the [fields] of a body only, so a body that a dry run
    accepted is accepted with the dry run taken off; and on a connection
    where no statement raises the import then imports as many fields as the
    dry run counted normalized, for a content type under the slug the dry
    run named. *)
Theorem X11_dry_run_foretells
    e e' d dry_body req_body contentType fields dryRun slug ls lp normalized :
  validate dry_body = Ok (Accepted contentType fields dryRun slug ls lp normalized) ->
  truthy dryRun = true ->
  get (or req_body (VObj [])) "contentType"
    = get (or dry_body (VObj [])) "contentType" ->
  get (or req_body (VObj [])) "fields" = get (or dry_body (VObj [])) "fields" ->
  truthy (get (or req_body (VObj [])) "dryRun") = false ->
  quiet e' 0 (path_length slug d normalized) ->
  exists provided kept row replaced c',
    import e d dry_body =
      (Ok {| status := 200; body := dryRun_json true true slug true provided kept |},
       connect d)
    /\ import e' d req_body =
         (Ok {| status := 200;
                body := imported_json true (Some (type_row row)) kept replaced |}, c')
    /\ ct_slug row = slug
    /\ kept = List.length normalized.
Proof.
  intros Hv Hd Hc Hf Hd' Hq.
  pose proof (validate_same_parts dry_body req_body Hc Hf) as Hv'.
  rewrite Hv in Hv'.
  assert (Hfalse : truthy (match get (or req_body (VObj [])) "dryRun" with
                           | VUndefined => VBool false
                           | v => v
                           end) = false)
    by (destruct (get (or req_body (VObj [])) "dryRun"); exact Hd' || reflexivity).
  destruct (import_succeeds _ _ _ _ _ _ _ _ _ _ Hv' Hfalse Hq)
    as (answer & c' & Hi & _ & H).
  exists (List.length fields), (List.length normalized).
  destruct (named slug d) as [|r0 others] eqn:Hn; cbv zeta in H;
    destruct H as [-> Hdb]; eexists _, _, c';
    (split; [unfold import; apply (handler_dryRun _ _ _ _ _ _ _ _ _ _ Hv Hd) |]);
    (split; [exact Hi |]).
  - split; reflexivity.
  - split; [exact (named_has_slug _ _ _ _ Hn) | reflexivity].
Qed.

(* ------------------------------------------------------------------ *)
(** * The admin pages: tokens, logout and roles *)

Lemma split_dot_nonempty s : split_dot s <> [].
Proof.
  induction s as [|c rest IH]; cbn [split_dot]; [discriminate |].
  destruct (Ascii.eqb c "."); [discriminate |].
  destruct (split_dot rest); discriminate.
Qed.

Lemma split_dot_dotless s : dotless s = true -> split_dot s = [s].
Proof.
  induction s as [|c rest IH]; cbn [split_dot dotless]; [reflexivity |].
  destruct (Ascii.eqb c "."); cbn [negb andb]; [discriminate |].
  intros H. rewrite (IH H). reflexivity.
Qed.

Lemma split_dot_first h t :
  dotless h = true -> split_dot (h ++ String "." t) = h :: split_dot t.
Proof.
  induction h as [|c rest IH]; cbn [split_dot dotless append].
  - intros _. reflexivity.
  - destruct (Ascii.eqb c "."); cbn [negb andb]; [discriminate |].
    intros H. rewrite (IH H). reflexivity.
Qed.

Lemma append_empty s : (s ++ "")%string = s.
Proof. induction s as [|c rest IH]; cbn [append]; [| rewrite IH]; reflexivity. Qed.

Lemma split_dot_second h p rest :
  dotless h = true -> dotless p = true -> rest_of_token rest ->
  exists more, split_dot (h ++ String "." (p ++ rest)) = h :: p :: more.
Proof.
  intros Hh Hp Hrest. rewrite (split_dot_first _ _ Hh).
  destruct Hrest as [-> | (signature & ->)].
  - rewrite append_empty. exists []. rewrite (split_dot_dotless _ Hp). reflexivity.
  - rewrite (split_dot_first _ _ Hp). eexists. reflexivity.
Qed.

Lemma percent_decode_one c rest :
  percent_decode (percent c ++ rest)%string =
    match percent_decode rest with
    | Some decoded => Some (String c decoded)
    | None => None
    end.
Proof.
  destruct c as [[|] [|] [|] [|] [|] [|] [|] [|]]; reflexivity.
Qed.

Lemma percent_length c : String.length (percent c) = 3%nat.
Proof.
  destruct c as [[|] [|] [|] [|] [|] [|] [|] [|]]; reflexivity.
Qed.

Lemma length_append (s t : string) :
  String.length (s ++ t)%string = (String.length s + String.length t)%nat.
Proof. induction s as [|c rest IH]; cbn [append String.length]; [| rewrite IH]; reflexivity. Qed.

(** X12.  The percent-encoding that [getRoleFromToken] applies to the decoded
    payload loses nothing: each code unit becomes a percent sign and its two
    lowercase hexadecimal digits, so the text is three times as long and two
    payloads that encode alike are the same payload. *)
Theorem X12_percent_encoding_is_faithful s :
  percent_decode (percent_encode s) = Some s
  /\ String.length (percent_encode s) = (3 * String.length s)%nat
  /\ forall t, percent_encode t = percent_encode s -> t = s.
Proof.
  assert (Hd : forall u, percent_decode (percent_encode u) = Some u).
  { induction u as [|c rest IH]; cbn [percent_encode]; [reflexivity |].
    rewrite percent_decode_one, IH. reflexivity. }
  split; [apply Hd |]. split.
  - induction s as [|c rest IH]; cbn [percent_encode String.length]; [reflexivity |].
    rewrite length_append, percent_length, IH. lia.
  - intros t H. pose proof (Hd t) as Ht. rewrite H, Hd in Ht.
    injection Ht as ->. reflexivity.
Qed.

Lemma clearAuthTokens_stored s k :
  blocked s = false ->
  blocked (clearAuthTokens s) = false
  /\ stored (clearAuthTokens s) k =
       if existsb (String.eqb k) keys then None else stored s k.
Proof.
  destruct s as [items b]. cbn [blocked]. intros ->.
  unfold clearAuthTokens, keys, removeItem. cbn [fold_left blocked stored existsb].
  split; [reflexivity |].
  destruct (k =? "access_token"); [rewrite ?orb_true_r; reflexivity |].
  destruct (k =? "authToken"); [rewrite ?orb_true_r; reflexivity |].
  destruct (k =? "jwt"); [rewrite ?orb_true_r; reflexivity |].
  destruct (k =? "serviceup_token"); [rewrite ?orb_true_r; reflexivity |].
  destruct (k =? "token"); reflexivity.
Qed.

Lemma clearAuthTokens_blocked s : blocked s = true -> clearAuthTokens s = s.
Proof.
  destruct s as [items b]. cbn [blocked]. intros ->. reflexivity.
Qed.

Section Browser.

Variable atob : string -> result string.
Variable parse_percent_encoded : string -> result value.
Variable JSON_parse : string -> result value.
Variable toUpperCase : string -> string.

(** X13.  [getRoleFromToken] reads the second part of the stored token and
    nothing else: the part before the first dot and whatever follows the
    second are not looked at, so two tokens with the same second part give
    the same role whatever their header and signature; a token without a
    dot gives [null] and is not decoded. *)
Theorem X13_role_from_second_part s h p rest :
  blocked s = false ->
  dotless h = true ->
  dotless p = true ->
  rest_of_token rest ->
  (stored s "token" = Some (h ++ String "." (p ++ rest))%string ->
   getRoleFromToken atob parse_percent_encoded s
   = role_of_part atob parse_percent_encoded p)
  /\ (forall token,
        token <> "" ->
        dotless token = true ->
        stored s "token" = Some token ->
        getRoleFromToken atob parse_percent_encoded s = VNull).
Proof.
  intros Hb Hh Hp Hrest. split; [intros Hs | intros token Hne Hd Hs].
  - destruct (split_dot_second h p rest Hh Hp Hrest) as (more & Hsplit).
    assert (Htruthy : truthy (VStr (h ++ String "." (p ++ rest))) = true).
    { cbn [truthy]. destruct h; reflexivity. }
    unfold getRoleFromToken, stored_token, getItem. rewrite Hb, Hs.
    cbn [rbind]. rewrite Htruthy. cbn [rbind negb String_].
    rewrite Hsplit. cbn [List.length Nat.ltb Nat.leb nth]. rewrite Htruthy.
    reflexivity.
  - assert (Htruthy : truthy (VStr token) = true).
    { cbn [truthy]. destruct token; [contradiction | reflexivity]. }
    unfold getRoleFromToken, stored_token, getItem. rewrite Hb, Hs.
    cbn [rbind]. rewrite Htruthy. cbn [rbind negb String_].
    rewrite (split_dot_dotless _ Hd), Htruthy. reflexivity.
Qed.

(** X14.  Logout clears the tokens and nothing else.  On a storage the page
    may use, after [clearAuthTokens] no role comes from a token any more,
    whatever was stored; every item under another key is as it was, so that
    the dashboard's [getCurrentRole], which reads [serviceup.user], answers
    as before the logout.  On a storage the page may not use nothing changes
    and nothing is thrown. *)
Theorem X14_logout_clears_tokens_only s :
  (blocked s = false ->
   getRoleFromToken atob parse_percent_encoded (clearAuthTokens s) = VNull
   /\ (forall k, In k keys -> stored (clearAuthTokens s) k = None)
   /\ (forall k, ~ In k keys -> stored (clearAuthTokens s) k = stored s k)
   /\ getCurrentRole JSON_parse toUpperCase (clearAuthTokens s)
      = getCurrentRole JSON_parse toUpperCase s)
  /\ (blocked s = true -> clearAuthTokens s = s).
Proof.
  split; [| apply clearAuthTokens_blocked].
  intros Hb.
  assert (Hin : forall k, In k keys -> stored (clearAuthTokens s) k = None).
  { intros k Hk. rewrite (proj2 (clearAuthTokens_stored s k Hb)).
    replace (existsb (String.eqb k) keys) with true; [reflexivity |].
    symmetry. apply existsb_exists. exists k. split; [exact Hk | apply String.eqb_refl]. }
  assert (Hout : forall k, ~ In k keys -> stored (clearAuthTokens s) k = stored s k).
  { intros k Hk. rewrite (proj2 (clearAuthTokens_stored s k Hb)).
    destruct (existsb (String.eqb k) keys) eqn:E; [| reflexivity].
    exfalso. apply Hk. apply existsb_exists in E. destruct E as (k' & Hk' & E).
    apply String.eqb_eq in E. subst k'. exact Hk'. }
  pose proof (proj1 (clearAuthTokens_stored s "token" Hb)) as Hb'.
  repeat split; try assumption.
  - unfold getRoleFromToken, stored_token, getItem. rewrite Hb'.
    rewrite !Hin by (unfold keys; simpl; auto 6). reflexivity.
  - unfold getCurrentRole, getItem. rewrite Hb', Hb.
    rewrite Hout; [reflexivity |].
    unfold keys. simpl. intros [H | [H | [H | [H | [H | []]]]]]; discriminate H.
Qed.

(** X15.  The dashboard's [getCurrentRole] falls back on ["ADMIN"]: it
    answers the stored role in upper case when the item [serviceup.user]
    parses to something whose [role] is a string that is not empty, and
    ["ADMIN"] in every other case, among them a storage that may not be
    read, no stored user, a text that does not parse, a parsed [null] and a
    role that is not a string. *)
Theorem X15_current_role_defaults_to_admin s :
  toUpperCase "ADMIN" = "ADMIN" ->
  (forall raw parsed role,
     blocked s = false ->
     stored s "serviceup.user" = Some raw ->
     raw <> "" ->
     JSON_parse raw = Ok parsed ->
     get parsed "role" = VStr role ->
     role <> "" ->
     getCurrentRole JSON_parse toUpperCase s = toUpperCase role)
  /\ ((exists raw parsed role,
         blocked s = false
         /\ stored s "serviceup.user" = Some raw /\ raw <> ""
         /\ JSON_parse raw = Ok parsed
         /\ get parsed "role" = VStr role /\ role <> "")
      \/ getCurrentRole JSON_parse toUpperCase s = "ADMIN").
Proof.
  intros Hup. split.
  - intros raw parsed role Hb Hs Hraw Hp Hr Hrole.
    unfold getCurrentRole, getItem. rewrite Hb, Hs. cbn [rbind truthy].
    apply String.eqb_neq in Hraw. rewrite Hraw. cbn [negb rbind String_].
    rewrite Hp. cbn [rbind].
    assert (Hm : member parsed "role" = Ok (VStr role)).
    { unfold member. destruct parsed; try (rewrite <- Hr; reflexivity); discriminate Hr. }
    rewrite Hm. cbn [rbind]. unfold or. cbn [truthy].
    apply String.eqb_neq in Hrole. rewrite Hrole. reflexivity.
  - unfold getCurrentRole, getItem.
    destruct (blocked s) eqn:Hb; [right; reflexivity |].
    destruct (stored s "serviceup.user") as [raw|] eqn:Hs; [| right; reflexivity].
    cbn [rbind truthy].
    destruct (raw =? "") eqn:Hraw; [right; reflexivity |].
    cbn [negb rbind String_].
    destruct (JSON_parse raw) as [parsed|m] eqn:Hp; [| right; reflexivity].
    cbn [rbind].
    destruct (member parsed "role") as [role|m] eqn:Hm; [| right; reflexivity].
    cbn [rbind]. unfold or.
    destruct (truthy role) eqn:Ht.
    + destruct role as [| | b | n | r | items | props];
        try (right; reflexivity).
      left. exists raw, parsed, r.
      apply String.eqb_neq in Hraw.
      repeat split; try assumption.
      * unfold member in Hm. destruct parsed; try discriminate Hm;
          injection Hm as Hm; exact Hm.
      * cbn [truthy] in Ht. apply String.eqb_neq.
        destruct (r =? ""); [discriminate Ht | reflexivity].
    + right. cbn [call_toUpperCase]. exact Hup.
Qed.

(** X16.  The sidebar's role falls back on ["ADMIN"] too, and the role it is
    given goes before the token: with a role that is a string and stays one
    that is not empty in upper case, the stored token is not consulted for
    the answer; with no role given and no role from a token, and so after a
    logout, the role is ["ADMIN"]. *)
Theorem X16_effective_role s :
  toUpperCase "ADMIN" = "ADMIN" ->
  (forall role,
     role <> "" -> toUpperCase role <> "" ->
     effectiveRole atob parse_percent_encoded toUpperCase (VStr role) s
     = Ok (toUpperCase (toUpperCase role)))
  /\ (forall role,
        truthy role = false ->
        getRoleFromToken atob parse_percent_encoded s = VNull ->
        effectiveRole atob parse_percent_encoded toUpperCase role s = Ok "ADMIN")
  /\ (forall role,
        truthy role = false ->
        blocked s = false ->
        effectiveRole atob parse_percent_encoded toUpperCase role (clearAuthTokens s)
        = Ok "ADMIN").
Proof.
  intros Hup.
  assert (Hnone : forall role s',
             truthy role = false ->
             getRoleFromToken atob parse_percent_encoded s' = VNull ->
             effectiveRole atob parse_percent_encoded toUpperCase role s' = Ok "ADMIN").
  { intros role s' Hr Ht. unfold effectiveRole. rewrite Hr, Ht. cbn [rbind].
    unfold or. cbn [truthy call_toUpperCase]. rewrite Hup. reflexivity. }
  split; [| split].
  - intros role Hr Hu. unfold effectiveRole. cbn [truthy].
    apply String.eqb_neq in Hr. rewrite Hr. cbn [negb String_ rbind].
    unfold or. cbn [truthy].
    apply String.eqb_neq in Hu. rewrite Hu. cbn [negb truthy]. rewrite Hu.
    reflexivity.
  - intros role. apply Hnone.
  - intros role Hr Hb. apply Hnone; [exact Hr |].
    pose proof (proj1 (clearAuthTokens_stored s "token" Hb)) as Hb'.
    unfold getRoleFromToken, stored_token, getItem. rewrite Hb'.
    rewrite !(proj2 (clearAuthTokens_stored s _ Hb)). reflexivity.
Qed.

End Browser.

(* ------------------------------------------------------------------ *)
(** * The sidebar's items *)

Lemma member_defined v k :
  v <> VNull -> v <> VUndefined -> member v k = Ok (get v k).
Proof. destruct v; intros Hn Hu; try reflexivity; congruence. Qed.

Lemma member_throws v k message :
  member v k = Throw message -> message = TypeError_null.
Proof. destruct v; cbn; congruence. Qed.

Lemma filter_canSee_defined children role :
  Forall (fun child => child <> VNull /\ child <> VUndefined) children ->
  filter_canSee children role =
    Ok (filter (fun child => canSee (get child "roles") role) children).
Proof.
  induction 1 as [|child rest [Hn Hu] _ IH]; [reflexivity|].
  cbn [filter_canSee filter]. rewrite (member_defined _ _ Hn Hu).
  cbn [rbind]. rewrite IH. cbn [rbind]. reflexivity.
Qed.

Lemma filter_canSee_throws children role :
  In VNull children \/ In VUndefined children ->
  filter_canSee children role = Throw TypeError_null.
Proof.
  induction children as [|child rest IH]; [intros [[]|[]]|].
  intros Hin. cbn [filter_canSee].
  destruct (member child "roles") as [roles|message] eqn:Hm.
  - cbn [rbind]. rewrite IH; [reflexivity|].
    destruct Hin as [[->|Hin]|[->|Hin]]; try discriminate; auto.
  - cbn [rbind]. apply member_throws in Hm. now subst.
Qed.

Lemma filter_canSee_message children role message :
  filter_canSee children role = Throw message -> message = TypeError_null.
Proof.
  induction children as [|child rest IH]; [discriminate|].
  cbn [filter_canSee].
  destruct (member child "roles") as [roles|m] eqn:Hm.
  - cbn [rbind]. destruct (filter_canSee rest role); [discriminate|].
    cbn [rbind]. intros [= <-]. now apply IH.
  - cbn [rbind]. intros [= <-]. now apply member_throws in Hm.
Qed.

Lemma filter_canSee_sound children role kept :
  filter_canSee children role = Ok kept ->
  kept = filter (fun child => canSee (get child "roles") role) children
  /\ Forall (fun child => child <> VNull /\ child <> VUndefined) children.
Proof.
  revert kept. induction children as [|child rest IH]; intros kept.
  - cbn. intros [= <-]. split; constructor.
  - cbn [filter_canSee filter].
    destruct (member child "roles") as [roles|message] eqn:Hm; [|discriminate].
    cbn [rbind].
    destruct (filter_canSee rest role) as [others|message] eqn:Hr; [|discriminate].
    cbn [rbind]. intros [= <-].
    destruct (IH _ eq_refl) as [-> Hall].
    assert (Hd : child <> VNull /\ child <> VUndefined)
      by (unfold member in Hm; destruct child; split; congruence).
    rewrite (member_defined _ _ (proj1 Hd) (proj2 Hd)) in Hm.
    injection Hm as <-. split; [reflexivity|]. now constructor.
Qed.

Lemma SidebarLink_target to label target :
  truthy (link_target (SidebarLink to label target)) = true.
Proof.
  unfold SidebarLink. cbn [link_target]. unfold or.
  destruct (truthy target) eqn:Ht; [exact Ht|reflexivity].
Qed.

(** X17.  The sidebar shows an item to a role only when [canSee] lets it:
    an item that is rendered has roles the role may see, and every link
    rendered under it is the link of one of the item's children that the
    role may see and that has a destination, with the item's target where
    the child has none; no rendered link has an empty target.  An item the
    role may not see renders nothing, whatever its children are. *)
Theorem X17_sidebar_shows_permitted_only item role :
  (forall e,
     render_item item role = Ok (Some e) ->
     canSee (get item "roles") role = true
     /\ (forall l, entry_head e = heading_link l ->
           truthy (get item "to") = true
           /\ l = SidebarLink (get item "to") (or (get item "label") (VStr "Link"))
                    (get item "target"))
     /\ (forall l, In (Some l) (entry_children e) ->
           truthy (link_target l) = true
           /\ exists child,
                In child (elements (get item "children"))
                /\ canSee (get child "roles") role = true
                /\ truthy (get child "to") = true
                /\ l = SidebarLink (get child "to")
                         (or (get child "label") (VStr "Link"))
                         (or (get child "target") (get item "target")))
     /\ List.length (entry_children e)
        = List.length (filter (fun child => canSee (get child "roles") role)
                         (elements (get item "children"))))
  /\ (item <> VNull -> item <> VUndefined ->
      canSee (get item "roles") role = false ->
      render_item item role = Ok None).
Proof.
  split.
  - intros e. unfold render_item.
    destruct (member item "roles") as [roles|message] eqn:Hm; [|discriminate].
    cbn [rbind].
    assert (Hroles : roles = get item "roles")
      by (unfold member in Hm; destruct item; congruence).
    subst roles.
    destruct (canSee (get item "roles") role) eqn:Hsee; [|discriminate].
    cbn [negb].
    set (children := elements (get item "children")).
    assert (Hkept : forall kept,
      (if isArray (get item "children") && (0 <? List.length children)%nat
       then filter_canSee children role else Ok []) = Ok kept ->
      kept = filter (fun child => canSee (get child "roles") role) children).
    { intros kept.
      destruct (isArray (get item "children")) eqn:Ha; cbn [andb].
      - destruct children as [|c cs] eqn:Hc; cbn [List.length Nat.ltb Nat.leb].
        + now intros [= <-].
        + intros Hf. now apply filter_canSee_sound in Hf.
      - intros [= <-]. subst children.
        destruct (get item "children"); try reflexivity; discriminate. }
    destruct (if isArray (get item "children") && (0 <? List.length children)%nat
              then filter_canSee children role else Ok []) as [kept|message] eqn:Hf;
      [|discriminate].
    cbn [rbind]. intros [= <-]. cbn [entry_head entry_children].
    specialize (Hkept _ eq_refl). subst kept.
    split; [reflexivity|]. split; [|split].
    + intros l. destruct (truthy (get item "to")); [|discriminate].
      intros [= <-]. split; reflexivity.
    + intros l Hin.
      destruct (0 <? List.length (filter _ children))%nat; [|destruct Hin].
      apply in_map_iff in Hin. destruct Hin as (child & Hl & Hin).
      apply filter_In in Hin. destruct Hin as [Hin Hc].
      destruct (truthy (get child "to")) eqn:Hto; [|discriminate].
      injection Hl as <-. split; [apply SidebarLink_target|].
      exists child. repeat split; assumption.
    + destruct (filter _ children) as [|c cs]; [reflexivity|].
      cbn [List.length Nat.ltb Nat.leb]. now rewrite length_map.
  - intros Hn Hu Hsee. unfold render_item.
    rewrite (member_defined _ _ Hn Hu). cbn [rbind]. rewrite Hsee. reflexivity.
Qed.

(** X18.  Nothing catches while the sidebar renders: an item that is [null]
    or [undefined] throws, and so does an item the role may see whose
    children hold a [null] or an [undefined], even where every other child
    could be shown.  Without such a child the item renders. *)
Theorem X18_null_item_breaks_render item role :
  (item = VNull \/ item = VUndefined ->
   render_item item role = Throw TypeError_null)
  /\ (forall children,
        item <> VNull -> item <> VUndefined ->
        canSee (get item "roles") role = true ->
        get item "children" = VArr children ->
        (In VNull children \/ In VUndefined children ->
         render_item item role = Throw TypeError_null)
        /\ (Forall (fun child => child <> VNull /\ child <> VUndefined) children ->
            exists e, render_item item role = Ok (Some e)))
  /\ (forall message, render_item item role = Throw message ->
        message = TypeError_null).
Proof.
  split; [|split].
  - intros [-> | ->]; reflexivity.
  - intros children Hn Hu Hsee Hc. unfold render_item.
    rewrite (member_defined _ _ Hn Hu). cbn [rbind]. rewrite Hsee, Hc.
    cbn [negb isArray elements andb]. split.
    + intros Hin.
      destruct children as [|c cs]; [now destruct Hin|].
      cbn [List.length Nat.ltb Nat.leb].
      now rewrite filter_canSee_throws.
    + intros Hall.
      destruct children as [|c cs]; cbn [List.length Nat.ltb Nat.leb].
      * cbn [rbind]. eauto.
      * rewrite (filter_canSee_defined _ _ Hall). cbn [rbind]. eauto.
  - intros message. unfold render_item.
    destruct (member item "roles") as [roles|m] eqn:Hm.
    + cbn [rbind]. destruct (negb (canSee roles role)); [discriminate|].
      destruct (isArray (get item "children")
                && (0 <? List.length (elements (get item "children")))%nat).
      * destruct (filter_canSee (elements (get item "children")) role)
          as [kept|m] eqn:Hf; [discriminate|].
        cbn [rbind]. intros [= <-].
        now apply filter_canSee_message in Hf.
      * cbn [rbind]. discriminate.
    + cbn [rbind]. intros [= <-]. now apply member_throws in Hm.
Qed.

(* ------------------------------------------------------------------ *)
(** * The further properties on examples *)

(** A dry run leaves no transaction open. *)
Lemma X2_dry_run_is_answered :
  pending (snd (import reliable fresh_store body_dry)) = None.
Proof.
  exact (proj1 (X2_answers reliable fresh_store body_dry _ _ eq_refl)).
Defined.

Lemma rollback_raises_first : first_raise rollback_raises 0 3 "deadlock detected".
Proof.
  split; [| reflexivity].
  intros j Hj. destruct j as [|[|[|j]]]; [reflexivity | reflexivity | reflexivity | lia].
Defined.

(** The DELETE of a re-import raises and then the ROLLBACK: the second
    error leaves the handler. *)
Lemma X3_rollback_raises_on_reimport :
  fst (import rollback_raises case_store body_notes) = Throw "connection terminated"
  /\ committed (db (snd (import rollback_raises case_store body_notes)))
     = committed case_store.
Proof.
  edestruct (X3_rollback_raises rollback_raises case_store body_notes)
    with (k := 3%nat) (message := "deadlock detected")
         (message' := "connection terminated") as (Hf & Hc & _).
  - reflexivity.
  - reflexivity.
  - vm_compute. lia.
  - exact rollback_raises_first.
  - reflexivity.
  - split; [exact Hf | exact Hc].
Defined.


(** The flag 1 is stored [true] by the INSERT and [false] by the UPDATE. *)
Lemma X5_flag_one_true_then_false :
  p_is_system (insert_params obj_flagged "Case" "Cases") = Some (VBool true)
  /\ p_is_system (update_params obj_flagged "Case" "Cases") = Some (VBool false).
Proof.
  refine (proj2 (proj2 (proj2 (proj2 (proj2 (proj2 (proj2
            (X5_system_flag_differs obj_flagged "Case" "Cases")))))))
            eq_refl _).
  intros b. discriminate.
Defined.

(** [notes] re-imported twice: the same answer, a new field id. *)
Lemma X6_reimport_notes_twice :
  exists answer c1 c2,
    import reliable case_store body_notes = (Ok answer, c1)
    /\ import reliable (db c1) body_notes = (Ok answer, c2)
    /\ map cf_id (content_fields (committed (db c1))) = [2%Z]
    /\ map cf_id (content_fields (committed (db c2))) = [3%Z].
Proof.
  edestruct (X6_reimport_twice reliable reliable case_store body_notes)
    as (answer & c1 & c2 & H1 & H2 & _ & Hf1 & Hf2).
  - reflexivity.
  - reflexivity.
  - reflexivity.
  - apply reliable_quiet.
  - apply reliable_quiet.
  - reflexivity.
  - exists answer, c1, c2. rewrite Hf1, Hf2.
    split; [exact H1 |]. split; [exact H2 |]. split; reflexivity.
Defined.

(** [case] created and imported again: one content type, one field. *)
Lemma X7_create_case_then_reimport :
  exists answer1 answer2 c1 c2,
    import reliable fresh_store body_status = (Ok answer1, c1)
    /\ import reliable (db c1) body_status = (Ok answer2, c2)
    /\ map ct_slug (content_types (committed (db c2))) = ["case"]
    /\ map cf_id (content_fields (committed (db c2))) = [2%Z].
Proof.
  edestruct (X7_create_then_reimport reliable reliable fresh_store body_status)
    as (c1 & c2 & H1 & H2 & Ht & Hf).
  - reflexivity.
  - reflexivity.
  - reflexivity.
  - apply reliable_quiet.
  - apply reliable_quiet.
  - eexists _, _, c1, c2. rewrite Ht, Hf.
    split; [exact H1 |]. split; [exact H2 |]. split; reflexivity.
Defined.

(** The row stored for [status] is well formed. *)
Lemma X8_status_row_well_formed :
  exists answer c' kept inserted,
    import reliable fresh_store body_status = (Ok answer, c')
    /\ content_fields (committed (db c')) = kept ++ inserted
    /\ List.length inserted = 1%nat
    /\ Forall well_formed_field inserted.
Proof.
  edestruct (X8_field_rows_well_formed reliable fresh_store body_status)
    as (answer & c' & kept & inserted & Hi & Hf & _ & Hn & Hw).
  - reflexivity.
  - reflexivity.
  - apply reliable_quiet.
  - exists answer, c', kept, inserted. repeat split; assumption.
Defined.


(** The row a re-import of [case] answers with is in the store. *)
Lemma X10_reimported_case_is_stored :
  exists c' row,
    snd (import reliable case_store body_notes) = c'
    /\ In row (content_types (committed (db c')))
    /\ ct_slug row = "case"
    /\ ct_name row = Some (VStr "Cases").
Proof.
  edestruct (X10_answered_row_is_stored reliable case_store body_notes)
    as (c' & row & Hi & Hin & Hs & _ & _ & _ & Hn & _).
  - reflexivity.
  - reflexivity.
  - apply reliable_quiet.
  - exists c', row. rewrite Hi. repeat split; assumption.
Defined.

(** The dry run of three entries foretells the one field of the import. *)
Lemma X11_dry_run_of_case_foretells :
  exists provided row replaced c',
    import reliable fresh_store body_dry =
      (Ok {| status := 200; body := dryRun_json true true "case" true provided 1 |},
       connect fresh_store)
    /\ import reliable fresh_store body_written =
         (Ok {| status := 200;
                body := imported_json true (Some (type_row row)) 1 replaced |}, c').
Proof.
  edestruct (X11_dry_run_foretells reliable reliable fresh_store body_dry body_written)
    as (provided & kept & row & replaced & c' & Hd & Hi & _ & Hk).
  - reflexivity.
  - reflexivity.
  - reflexivity.
  - reflexivity.
  - reflexivity.
  - apply reliable_quiet.
  - exists provided, row, replaced, c'. rewrite Hk in Hd, Hi.
    split; [exact Hd | exact Hi].
Defined.

(** The role of the stored token is read from its second part. *)
Lemma X13_role_of_example_token :
  getRoleFromToken example_atob example_parse_percent_encoded example_storage_token
  = VStr "editor".
Proof.
  refine (eq_trans
            (proj1 (X13_role_from_second_part example_atob
                      example_parse_percent_encoded example_storage_token
                      "e30" "eyJyb2xlIjoiZWRpdG9yIn0" ".c2ln"
                      eq_refl eq_refl eq_refl _) eq_refl)
            eq_refl).
  right. exists "c2ln". reflexivity.
Defined.

(** Logging out removes the token and keeps the stored user. *)
Lemma X14_logout_of_example :
  stored (clearAuthTokens example_storage) "jwt" = None
  /\ stored (clearAuthTokens example_storage) "serviceup.user"
     = Some (json_role "viewer")
  /\ getRoleFromToken example_atob example_parse_percent_encoded
       (clearAuthTokens example_storage) = VNull.
Proof.
  destruct (proj1 (X14_logout_clears_tokens_only example_atob
                     example_parse_percent_encoded example_JSON_parse
                     example_toUpperCase example_storage) eq_refl)
    as (Hr & Hk & Ho & _).
  split; [| split; [| exact Hr]].
  - apply Hk. right. right. left. reflexivity.
  - rewrite Ho; [reflexivity |].
    intros [H | [H | [H | [H | [H | []]]]]]; discriminate H.
Defined.

(** The stored user is a viewer. *)
Lemma X15_current_role_of_example :
  getCurrentRole example_JSON_parse example_toUpperCase example_storage = "VIEWER".
Proof.
  refine (proj1 (X15_current_role_defaults_to_admin example_JSON_parse
                   example_toUpperCase example_storage eq_refl)
            (json_role "viewer") (VObj [("role", VStr "viewer")]) "viewer"
            eq_refl eq_refl _ eq_refl eq_refl _); discriminate.
Defined.

(** The role the sidebar is given wins over the token; without either the
    role is ADMIN. *)
Lemma X16_effective_role_of_example :
  effectiveRole example_atob example_parse_percent_encoded example_toUpperCase
    (VStr "viewer") example_storage = Ok "VIEWER"
  /\ effectiveRole example_atob example_parse_percent_encoded example_toUpperCase
       VUndefined (clearAuthTokens example_storage) = Ok "ADMIN".
Proof.
  destruct (X16_effective_role example_atob example_parse_percent_encoded
              example_toUpperCase example_storage eq_refl) as (Hp & _ & Hc).
  split.
  - refine (Hp "viewer" _ _); discriminate.
  - exact (Hc VUndefined eq_refl eq_refl).
Defined.

(** An editor sees the group and two of its three children; a viewer sees
    nothing of it. *)
Lemma X17_example_item_by_role :
  (exists e,
     render_item example_item (VStr "EDITOR") = Ok (Some e)
     /\ List.length (entry_children e) = 2%nat)
  /\ render_item example_item (VStr "VIEWER") = Ok None.
Proof.
  split.
  - eexists. split; [reflexivity |].
    exact (proj2 (proj2 (proj2
             (proj1 (X17_sidebar_shows_permitted_only example_item (VStr "EDITOR"))
                _ eq_refl)))).
  - refine (proj2 (X17_sidebar_shows_permitted_only example_item (VStr "VIEWER"))
              _ _ eq_refl); discriminate.
Defined.

(** A [null] among the children of a group an editor may see. *)
Lemma X18_example_null_child :
  render_item example_item_null_child (VStr "EDITOR") = Throw TypeError_null.
Proof.
  refine (proj1 (proj1 (proj2 (X18_null_item_breaks_render example_item_null_child
                                 (VStr "EDITOR")))
                   _ _ _ eq_refl eq_refl) _); try discriminate.
  left. right. left. reflexivity.
Defined.
